(** * Calculator MCP server (src/index.ts): a shallow embedding

    JS numbers are IEEE binary64 values, modelled by the primitive floats of
    the Standard Library ([+], [-], [*], [/] and [===] on numbers are
    [PrimFloat.add], [sub], [mul], [div] and [eqb]).  Maps of the server
    (the session table) are stdpp [gmap]s; the widget registry is the list
    of shared widget objects, since [widgetsById] and [widgetsByUri] hold
    references to the same objects that [ReadResource] mutates. *)

From Stdlib Require Import Floats ZArith Ascii String.
From stdpp Require Import base gmap strings list pretty.

#[local] Set Warnings "-register-all".

Local Open Scope string_scope.

(* ------------------------------------------------------------------ *)
(** ** JSON values and JS runtime helpers *)

(** JSON values as [JSON.parse] produces them. *)
Inductive jval :=
  | JNull
  | JBool (b : bool)
  | JNum (x : float)
  | JStr (s : string)
  | JArr (l : list jval)
  | JObj (fields : list (string * jval)).

(** Property read [obj[k]] on an object built by [JSON.parse]: a repeated
    key keeps its last value. *)
Fixpoint obj_get (k : string) (fields : list (string * jval)) : option jval :=
  match fields with
  | [] => None
  | (k', v) :: rest =>
      match obj_get k rest with
      | Some v' => Some v'
      | None => if String.eqb k' k then Some v else None
      end
  end.

(** Decimal digits of a natural number. *)
Definition digits (n : N) : string := pretty n.

Fixpoint zeros (n : nat) : string :=
  match n with O => "" | S n' => String "0"%char (zeros n') end.

Fixpoint strip_trailing_zeros_rev (s : list Ascii.ascii) : list Ascii.ascii :=
  match s with
  | c :: s' => if Ascii.eqb c "0"%char then strip_trailing_zeros_rev s' else s
  | [] => []
  end.

(** [k] decimals of the natural [n / 10^k], trailing zeros removed. *)
Definition decimal_point (n : N) (k : nat) : string :=
  let d := digits n in
  let d := zeros (S k - String.length d) ++ d in
  let int_len := String.length d - k in
  let ip := String.substring 0 int_len d in
  let fp := String.substring int_len k d in
  let fp := String.string_of_list_ascii
              (List.rev (strip_trailing_zeros_rev (List.rev (String.list_ascii_of_string fp)))) in
  if String.eqb fp "" then ip else ip ++ "." ++ fp.

(** [String(x)] for a JS number.  NaN, the infinities and the zeros are
    printed as JS prints them; a finite value is printed by its exact
    decimal expansion, which is the digit string JS prints whenever that
    expansion is the shortest one that reads back as [x] (integers below
    1e21, and values such as 2.5 or 0.75). *)
Definition js_number_to_string (x : float) : string :=
  if PrimFloat.is_nan x then "NaN"
  else if PrimFloat.eqb x PrimFloat.infinity then "Infinity"
  else if PrimFloat.eqb x PrimFloat.neg_infinity then "-Infinity"
  else if PrimFloat.eqb x 0%float then "0"
  else match Prim2SF x with
       | S754_finite s m e =>
           let sign := if s then "-" else "" in
           match e with
           | Z0 => sign ++ digits (Npos m)
           | Zpos p => sign ++ digits (Npos m * 2 ^ Npos p)%N
           | Zneg p => sign ++ decimal_point (Npos m * 5 ^ Npos p)%N (Pos.to_nat p)
           end
       | _ => "NaN"
       end.

(** [process.env.WIDGET_DOMAIN || "https://calculate-sum.zeabur.app"]:
    an unset or empty variable falls back to the default. *)
Definition widget_domain (env : option string) : string :=
  match env with
  | Some d => if String.eqb d "" then "https://calculate-sum.zeabur.app" else d
  | None => "https://calculate-sum.zeabur.app"
  end.

Definition dq : string := String (ascii_of_nat 34) "".
Definition nl : string := String (ascii_of_nat 10) "".

Definition ascii_lower (c : ascii) : ascii :=
  let n := nat_of_ascii c in
  if (65 <=? n)%nat && (n <=? 90)%nat then ascii_of_nat (n + 32) else c.

(** [String.prototype.toLowerCase] on the ASCII titles of the registry. *)
Fixpoint to_lower (s : string) : string :=
  match s with
  | EmptyString => EmptyString
  | String c s' => String (ascii_lower c) (to_lower s')
  end.

(* ------------------------------------------------------------------ *)
(** ** node:path (posix) *)

Module Path.

(** [s.split("/")]. *)
Fixpoint split_slash (s : string) : list string :=
  match s with
  | EmptyString => [""]
  | String c s' =>
      let rest := split_slash s' in
      if Ascii.eqb c "/"%char then "" :: rest
      else match rest with
           | r :: rs => String c r :: rs
           | [] => [String c ""]
           end
  end.

(** One segment of Node's [normalizeString]; the stack holds the kept
    segments, last one first. *)
Definition norm_step (allow_above_root : bool) (stack : list string) (seg : string)
    : list string :=
  if String.eqb seg "" || String.eqb seg "." then stack
  else if String.eqb seg ".." then
    match stack with
    | x :: st => if String.eqb x ".." then
                   (if allow_above_root then ".." :: stack else stack)
                 else st
    | [] => if allow_above_root then [".."] else []
    end
  else seg :: stack.

Definition starts_with_slash (s : string) : bool :=
  match s with String c _ => Ascii.eqb c "/"%char | EmptyString => false end.

Fixpoint ends_with_slash (s : string) : bool :=
  match s with
  | EmptyString => false
  | String c EmptyString => Ascii.eqb c "/"%char
  | String _ s' => ends_with_slash s'
  end.

(** [path.normalize]. *)
Definition normalize (s : string) : string :=
  if String.eqb s "" then "." else
  let is_abs := starts_with_slash s in
  let trailing := ends_with_slash s in
  let segs := rev (foldl (norm_step (negb is_abs)) [] (split_slash s)) in
  let p := String.concat "/" segs in
  if String.eqb p "" then
    (if is_abs then "/" else if trailing then "./" else ".")
  else
    let p := if trailing then p ++ "/" else p in
    if is_abs then "/" ++ p else p.

(** [path.join(a, b)]: empty arguments are dropped, the rest joined by
    ["/"] and normalised. *)
Definition join (a b : string) : string :=
  let joined :=
    if String.eqb a "" then b
    else if String.eqb b "" then a
    else a ++ "/" ++ b in
  if String.eqb joined "" then "." else normalize joined.

End Path.

(* ------------------------------------------------------------------ *)
(** ** node:fs *)

Inductive fentry := FFile (content : string) | FDir.

(** A file system maps a path (no trailing slash) to its entry. *)
Definition filesystem := string -> option fentry.

(** [fs.statSync(p)]: a path with a trailing slash names a directory only
    (for a regular file the call fails with ENOTDIR). *)
Definition fs_stat (fs : filesystem) (p : string) : option fentry :=
  if Path.ends_with_slash p then
    match fs (String.substring 0 (String.length p - 1) p) with
    | Some FDir => Some FDir
    | _ => None
    end
  else fs p.

(** [fs.existsSync(p)]. *)
Definition exists_sync (fs : filesystem) (p : string) : bool :=
  match fs_stat fs p with Some _ => true | None => false end.

(** [fs.readFileSync(p, "utf-8")]; [None] is the thrown error (a
    directory gives EISDIR, a missing path ENOENT). *)
Definition read_file_sync (fs : filesystem) (p : string) : option string :=
  match fs_stat fs p with Some (FFile c) => Some c | _ => None end.

(* ------------------------------------------------------------------ *)
(** ** Widget configuration *)

(** [type CalculatorWidget]; the field [id] is named [wid] here. *)
Record CalculatorWidget := {
  wid : string;
  title : string;
  templateUri : string;
  invoking : string;
  invoked : string;
  html : string;
  responseText : string
}.

(** The fallback page of [readWidgetHtml]. *)
Definition generated_html (domain widgetName : string) : string :=
  "<!DOCTYPE html>" ++ nl ++ "<html>" ++ nl ++ "<head>" ++ nl ++
  "  <meta charset=" ++ dq ++ "UTF-8" ++ dq ++ ">" ++ nl ++
  "  <meta name=" ++ dq ++ "viewport" ++ dq ++ " content=" ++ dq ++
  "width=device-width, initial-scale=1.0" ++ dq ++ ">" ++ nl ++
  "  <style>" ++ nl ++
  "    * { margin: 0; padding: 0; box-sizing: border-box; }" ++ nl ++
  "    body { font-family: -apple-system, BlinkMacSystemFont, sans-serif; }" ++ nl ++
  "  </style>" ++ nl ++ "</head>" ++ nl ++ "<body>" ++ nl ++
  "  <div id=" ++ dq ++ widgetName ++ "-root" ++ dq ++ "></div>" ++ nl ++
  "  <script type=" ++ dq ++ "module" ++ dq ++ " src=" ++ dq ++ domain ++
  "/assets/" ++ widgetName ++ ".js" ++ dq ++ "></script>" ++ nl ++
  "</body>" ++ nl ++ "</html>".

(** [readWidgetHtml(widgetName)]; [None] when [readFileSync] throws. *)
Definition readWidgetHtml (fs : filesystem) (assets_dir : string) (env : option string)
    (widgetName : string) : option string :=
  let htmlPath := Path.join assets_dir (widgetName ++ ".html") in
  if exists_sync fs htmlPath then read_file_sync fs htmlPath
  else Some (generated_html (widget_domain env) widgetName).

(** The [widgets] array; [htmls] are the five [readWidgetHtml] results
    read at start-up, in order. *)
Definition mk_widgets (h_add h_sub h_mul h_div h_super : string) : list CalculatorWidget :=
  [ {| wid := "add"; title := "Addition Calculator";
       templateUri := "ui://widget/add.html";
       invoking := "Opening addition calculator...";
       invoked := "Addition calculator ready";
       html := h_add; responseText := "Addition calculator rendered!" |};
    {| wid := "subtract"; title := "Subtraction Calculator";
       templateUri := "ui://widget/subtract.html";
       invoking := "Opening subtraction calculator...";
       invoked := "Subtraction calculator ready";
       html := h_sub; responseText := "Subtraction calculator rendered!" |};
    {| wid := "multiply"; title := "Multiplication Calculator";
       templateUri := "ui://widget/multiply.html";
       invoking := "Opening multiplication calculator...";
       invoked := "Multiplication calculator ready";
       html := h_mul; responseText := "Multiplication calculator rendered!" |};
    {| wid := "divide"; title := "Division Calculator";
       templateUri := "ui://widget/divide.html";
       invoking := "Opening division calculator...";
       invoked := "Division calculator ready";
       html := h_div; responseText := "Division calculator rendered!" |};
    {| wid := "super-calculator"; title := "Super Calculator";
       templateUri := "ui://widget/super-calculator.html";
       invoking := "Opening super calculator...";
       invoked := "Super calculator ready";
       html := h_super; responseText := "Super calculator rendered!" |} ].

(** Module initialisation of [widgets]: each [readWidgetHtml] call runs at
    load time, and a thrown error aborts start-up ([None]). *)
Definition widgets (fs : filesystem) (assets_dir : string) (env : option string)
    : option (list CalculatorWidget) :=
  let rd := readWidgetHtml fs assets_dir env in
  h1 ← rd "add"; h2 ← rd "subtract"; h3 ← rd "multiply"; h4 ← rd "divide";
  h5 ← rd "super-calculator";
  Some (mk_widgets h1 h2 h3 h4 h5).

(** [Map.get] on [widgetsById] / [widgetsByUri]: the maps are filled by
    [widgets.forEach] with [set], so a repeated key refers to the last
    widget carrying it.  The result is the index of the shared object. *)
Fixpoint lookup_last {A} (key : A -> string) (k : string) (l : list A) (i : nat)
    : option nat :=
  match l with
  | [] => None
  | x :: rest =>
      match lookup_last key k rest (S i) with
      | Some j => Some j
      | None => if String.eqb (key x) k then Some i else None
      end
  end.

Definition widgetsById (reg : list CalculatorWidget) (name : string) : option nat :=
  lookup_last wid name reg 0.

Definition widgetsByUri (reg : list CalculatorWidget) (uri : string) : option nat :=
  lookup_last templateUri uri reg 0.

(* ------------------------------------------------------------------ *)
(** ** Descriptor metadata and the catalogue *)

Record DescriptorMeta := {
  outputTemplate : string;
  meta_invoking : string;
  meta_invoked : string;
  widgetAccessible : bool;
  widgetDomain : string;
  connect_domains : list string;
  resource_domains : list string;
  widgetPrefersBorder : bool
}.

(** [widgetDescriptorMeta(widget)]; the environment is read at each call. *)
Definition widgetDescriptorMeta (env : option string) (w : CalculatorWidget) : DescriptorMeta :=
  let d := widget_domain env in
  {| outputTemplate := templateUri w;
     meta_invoking := invoking w;
     meta_invoked := invoked w;
     widgetAccessible := true;
     widgetDomain := d;
     connect_domains := [d];
     resource_domains := [d];
     widgetPrefersBorder := true |}.

Record InvocationMeta := { inv_invoking : string; inv_invoked : string }.

(** [widgetInvocationMeta(widget)]. *)
Definition widgetInvocationMeta (w : CalculatorWidget) : InvocationMeta :=
  {| inv_invoking := invoking w; inv_invoked := invoked w |}.

(** The two constant input schemas. *)
Inductive InputSchema := basicToolInputSchema | superCalculatorInputSchema.

Record Tool := {
  tool_name : string;
  tool_description : string;
  tool_inputSchema : InputSchema;
  tool_title : string;
  tool_meta : DescriptorMeta;
  destructiveHint : bool;
  openWorldHint : bool;
  readOnlyHint : bool
}.

Record Resource := {
  res_uri : string;
  res_name : string;
  res_description : string;
  res_mimeType : string;
  res_meta : DescriptorMeta
}.

Record ResourceTemplate := {
  rt_uriTemplate : string;
  rt_name : string;
  rt_description : string;
  rt_mimeType : string;
  rt_meta : DescriptorMeta
}.

Definition tool_of (env : option string) (w : CalculatorWidget) : Tool :=
  {| tool_name := wid w;
     tool_description :=
       if String.eqb (wid w) "super-calculator"
       then "A super calculator that can perform addition, subtraction, multiplication, and division operations"
       else "Performs " ++ to_lower (title w) ++ " and shows a calculator UI";
     tool_inputSchema :=
       if String.eqb (wid w) "super-calculator"
       then superCalculatorInputSchema else basicToolInputSchema;
     tool_title := title w;
     tool_meta := widgetDescriptorMeta env w;
     destructiveHint := false; openWorldHint := false; readOnlyHint := true |}.

Definition resource_of (env : option string) (w : CalculatorWidget) : Resource :=
  {| res_uri := templateUri w;
     res_name := title w;
     res_description := title w ++ " widget markup";
     res_mimeType := "text/html+skybridge";
     res_meta := widgetDescriptorMeta env w |}.

Definition resource_template_of (env : option string) (w : CalculatorWidget)
    : ResourceTemplate :=
  {| rt_uriTemplate := templateUri w;
     rt_name := title w;
     rt_description := title w ++ " widget markup";
     rt_mimeType := "text/html+skybridge";
     rt_meta := widgetDescriptorMeta env w |}.

(** [tools], [resources], [resourceTemplates]: [widgets.map(...)] at
    start-up. *)
Definition tools (env : option string) (ws : list CalculatorWidget) : list Tool :=
  map (tool_of env) ws.

Definition resources (env : option string) (ws : list CalculatorWidget) : list Resource :=
  map (resource_of env) ws.

Definition resourceTemplates (env : option string) (ws : list CalculatorWidget)
    : list ResourceTemplate :=
  map (resource_template_of env) ws.

(* ------------------------------------------------------------------ *)
(** ** Argument parsers (zod) *)

(** [z.number()]: a JS number other than NaN (zod 3 rejects NaN). *)
Definition z_number (v : option jval) : option float :=
  match v with
  | Some (JNum x) => if PrimFloat.is_nan x then None else Some x
  | _ => None
  end.

Definition operation_enum : list string := ["add"; "subtract"; "multiply"; "divide"].

(** [z.enum(["add", "subtract", "multiply", "divide"])]. *)
Definition z_operation (v : option jval) : option string :=
  match v with
  | Some (JStr s) => if existsb (String.eqb s) operation_enum then Some s else None
  | _ => None
  end.

Record ParsedArgs := { pa : float; pb : float; poperation : option string }.

(** [basicToolInputParser.parse(args)]: unknown keys are stripped; [None]
    is the thrown [ZodError]. *)
Definition basicToolInputParser (args : list (string * jval)) : option ParsedArgs :=
  a ← z_number (obj_get "a" args);
  b ← z_number (obj_get "b" args);
  Some {| pa := a; pb := b; poperation := None |}.

(** [superCalculatorInputParser.parse(args)]. *)
Definition superCalculatorInputParser (args : list (string * jval)) : option ParsedArgs :=
  a ← z_number (obj_get "a" args);
  b ← z_number (obj_get "b" args);
  op ← z_operation (obj_get "operation" args);
  Some {| pa := a; pb := b; poperation := Some op |}.

(* ------------------------------------------------------------------ *)
(** ** Protocol server handlers *)

(** The errors the handlers throw. *)
Inductive McpError :=
  | UnknownTool (name : string)          (* "Unknown tool: ..." *)
  | InvalidArguments                     (* ZodError of the parsers *)
  | DivideByZero                         (* "Cannot divide by zero" *)
  | UnknownOperation (op : string)       (* "Unknown operation: ..." *)
  | UnknownResource (uri : string)       (* "Unknown resource: ..." *)
  | ReadError.                           (* readFileSync threw *)

Record StructuredContent := {
  sc_a : float;
  sc_b : float;
  sc_operation : option string;
  sc_result : float
}.

Record CallToolResult := {
  content_text : string;
  structuredContent : StructuredContent;
  result_meta : InvocationMeta
}.

Definition show (x : float) : string := js_number_to_string x.

(** The dispatch of the super-calculator branch, [switch (parsedArgs.operation)]. *)
Definition super_switch (p : ParsedArgs) : McpError + (float * string) :=
  let a := pa p in let b := pb p in
  match poperation p with
  | Some "add" => inr (a + b, "sum of " ++ show a ++ " and " ++ show b)%float
  | Some "subtract" => inr (a - b, "difference of " ++ show a ++ " and " ++ show b)%float
  | Some "multiply" => inr (a * b, "product of " ++ show a ++ " and " ++ show b)%float
  | Some "divide" =>
      if PrimFloat.eqb b 0%float then inl DivideByZero
      else inr (a / b, "quotient of " ++ show a ++ " and " ++ show b)%float
  | Some op => inl (UnknownOperation op)
  | None => inl (UnknownOperation "undefined")
  end.

(** The dispatch of the basic branch, [switch (widget.id)]. *)
Definition basic_switch (id : string) (p : ParsedArgs) : McpError + (float * string) :=
  let a := pa p in let b := pb p in
  match id with
  | "add" => inr (a + b, "sum of " ++ show a ++ " and " ++ show b)%float
  | "subtract" => inr (a - b, "difference of " ++ show a ++ " and " ++ show b)%float
  | "multiply" => inr (a * b, "product of " ++ show a ++ " and " ++ show b)%float
  | "divide" =>
      if PrimFloat.eqb b 0%float then inl DivideByZero
      else inr (a / b, "quotient of " ++ show a ++ " and " ++ show b)%float
  | _ => inl (UnknownOperation id)
  end.

(** The CallTool handler; [args] is [request.params.arguments]. *)
Definition callTool (reg : list CalculatorWidget) (name : string)
    (args : option (list (string * jval))) : McpError + CallToolResult :=
  match widgetsById reg name ≫= (reg !!.) with
  | None => inl (UnknownTool name)
  | Some w =>
      let raw := default [] args in
      let parsed :=
        if String.eqb (wid w) "super-calculator"
        then superCalculatorInputParser raw else basicToolInputParser raw in
      match parsed with
      | None => inl InvalidArguments
      | Some p =>
          let sw := if String.eqb (wid w) "super-calculator"
                    then super_switch p else basic_switch (wid w) p in
          match sw with
          | inl e => inl e
          | inr (result, operationText) =>
              inr {| content_text :=
                       "The " ++ operationText ++ " is " ++ show result ++ ". " ++
                       responseText w;
                     structuredContent :=
                       {| sc_a := pa p; sc_b := pb p;
                          sc_operation :=
                            if String.eqb (wid w) "super-calculator"
                            then poperation p else None;
                          sc_result := result |};
                     result_meta := widgetInvocationMeta w |}
          end
      end
  end.

Record ResourceContent := {
  rc_uri : string;
  rc_mimeType : string;
  rc_text : string;
  rc_meta : DescriptorMeta
}.

(** Process-wide configuration read by the handlers. *)
Record Config := {
  cfg_fs : filesystem;
  ASSETS_DIR : string;
  cfg_env : option string;          (* process.env.WIDGET_DOMAIN *)
  initial_widgets : list CalculatorWidget   (* the [widgets] array at start-up *)
}.

(** The ReadResource handler.  It assigns [widget.html] on the shared
    widget object found through [widgetsByUri], so it returns the new
    widget store. *)
Definition readResource (c : Config) (reg : list CalculatorWidget) (uri : string)
    : (McpError + list ResourceContent) * list CalculatorWidget :=
  match widgetsByUri reg uri with
  | None => (inl (UnknownResource uri), reg)
  | Some i =>
      match reg !! i with
      | None => (inl (UnknownResource uri), reg)
      | Some w =>
          match readWidgetHtml (cfg_fs c) (ASSETS_DIR c) (cfg_env c) (wid w) with
          | None => (inl ReadError, reg)
          | Some h =>
              let w' := {| wid := wid w; title := title w; templateUri := templateUri w;
                           invoking := invoking w; invoked := invoked w; html := h;
                           responseText := responseText w |} in
              (inr [ {| rc_uri := templateUri w';
                        rc_mimeType := "text/html+skybridge";
                        rc_text := html w';
                        rc_meta := widgetDescriptorMeta (cfg_env c) w' |} ],
               <[i := w']> reg)
          end
      end
  end.

Inductive McpRequest :=
  | ListToolsReq
  | ListResourcesReq
  | ListResourceTemplatesReq
  | ReadResourceReq (uri : string)
  | CallToolReq (name : string) (args : option (list (string * jval))).

Inductive McpResponse :=
  | ToolsResp (ts : list Tool)
  | ResourcesResp (rs : list Resource)
  | ResourceTemplatesResp (rts : list ResourceTemplate)
  | ReadResp (contents : list ResourceContent)
  | CallResp (r : CallToolResult)
  | ErrorResp (e : McpError).

(** One request handled by a protocol server ([createCalculatorServer]),
    on the widget store shared by all server instances. *)
Definition handle (c : Config) (reg : list CalculatorWidget) (rq : McpRequest)
    : McpResponse * list CalculatorWidget :=
  match rq with
  | ListToolsReq => (ToolsResp (tools (cfg_env c) (initial_widgets c)), reg)
  | ListResourcesReq => (ResourcesResp (resources (cfg_env c) (initial_widgets c)), reg)
  | ListResourceTemplatesReq =>
      (ResourceTemplatesResp (resourceTemplates (cfg_env c) (initial_widgets c)), reg)
  | ReadResourceReq uri =>
      let '(r, reg') := readResource c reg uri in
      (match r with inl e => ErrorResp e | inr cs => ReadResp cs end, reg')
  | CallToolReq name args =>
      (match callTool reg name args with inl e => ErrorResp e | inr r => CallResp r end, reg)
  end.

(* ------------------------------------------------------------------ *)
(** ** Sessions and the HTTP dispatcher *)

(** [SessionRecord]: the protocol server and the SSE transport, by
    identity. *)
Record SessionRecord := { sr_server : nat; sr_transport : nat }.

Definition sessions := gmap string SessionRecord.

Definition ssePath := "/mcp".
Definition postPath := "/mcp/messages".

Inductive HttpResponse :=
  | Plain (status : nat) (body : string)           (* writeHead(status).end(body) *)
  | Json (status : nat) (body : jval)              (* JSON body as the client reads it *)
  | FileStream (path contentType content : string) (* createReadStream(path).pipe(res) *)
  | StreamError (path : string)                    (* the read stream failed *)
  | SseStream (sessionId : string)                 (* SSE stream left open *)
  | Forward (sessionId : string) (transport : nat) (* transport.handlePostMessage *)
  | Preflight.                                     (* 204 with the CORS allow-list *)

(** [url.searchParams.get(k)]: the first value given for [k]. *)
Fixpoint search_get (k : string) (q : list (string * string)) : option string :=
  match q with
  | [] => None
  | (k', v) :: rest => if String.eqb k' k then Some v else search_get k rest
  end.

(** [handlePostMessage]; [!sessionId] holds for a missing and for an
    empty parameter. *)
Definition handlePostMessage (ss : sessions) (query : list (string * string))
    : HttpResponse * sessions :=
  match search_get "sessionId" query with
  | None => (Plain 400 "Missing sessionId query parameter", ss)
  | Some "" => (Plain 400 "Missing sessionId query parameter", ss)
  | Some sid =>
      match ss !! sid with
      | None => (Plain 404 "Unknown session", ss)
      | Some s => (Forward sid (sr_transport s), ss)
      end
  end.

(** [handleSseRequest]: [sid] is [transport.sessionId] of the new
    transport, [connect_ok] whether [server.connect(transport)] resolved. *)
Definition handleSseRequest (ss : sessions) (sid : string) (server transport : nat)
    (connect_ok : bool) : HttpResponse * sessions :=
  let ss' := <[sid := {| sr_server := server; sr_transport := transport |}]> ss in
  if connect_ok then (SseStream sid, ss')
  else (Plain 500 "Failed to establish SSE connection", delete sid ss').

(** [JSON.stringify] of a number: a non-finite value is written [null]. *)
Definition json_number (x : float) : jval :=
  if PrimFloat.is_finite x then JNum x else JNull.

Definition err_body (msg : string) : jval := JObj [("error", JStr msg)].

(** [const { a, b } = v]: destructuring [null] throws a TypeError; any
    other value yields its properties, [undefined] ([None]) when absent. *)
Definition destructure (v : jval) (k : string) : option (option jval) :=
  match v with
  | JNull => None
  | JObj fields => Some (obj_get k fields)
  | _ => Some None
  end.

(** [handleCalculateApi]; [parsed] is the outcome of [JSON.parse(body)]
    ([None] when it throws). *)
Definition handleCalculateApi (parsed : option jval) : HttpResponse :=
  match parsed with
  | None => Json 400 (err_body "Invalid JSON")
  | Some v =>
      match destructure v "a", destructure v "b" with
      | Some a, Some b =>
          match a, b with
          | Some (JNum x), Some (JNum y) =>
              Json 200 (JObj [("result", json_number (x + y)%float)])
          | _, _ => Json 400 (err_body "Invalid inputs")
          end
      | _, _ => Json 400 (err_body "Invalid JSON")
      end
  end.

(** [serveStaticFile(req, res, fileName, contentType)]. *)
Definition serveStaticFile (c : Config) (fileName contentType : string) : HttpResponse :=
  let fullPath := Path.join (ASSETS_DIR c) fileName in
  if negb (exists_sync (cfg_fs c) fullPath) then
    Plain 404 ("File not found: " ++ fileName)
  else
    match fs_stat (cfg_fs c) fullPath with
    | Some (FFile content) => FileStream fullPath contentType content
    | _ => StreamError fullPath
    end.

Definition includes (s sub : string) : bool :=
  match String.index 0 sub s with Some _ => true | None => false end.

Definition ends_with (s suffix : string) : bool :=
  String.eqb (String.substring (String.length s - String.length suffix)
                (String.length suffix) s) suffix
  && (String.length suffix <=? String.length s)%nat.

Definition content_type_of (fileName : string) : string :=
  if ends_with fileName ".js" then "application/javascript"
  else if ends_with fileName ".css" then "text/css"
  else if ends_with fileName ".html" then "text/html"
  else "application/octet-stream".

(** The [/assets/] branch of the dispatcher, for a path that starts with
    ["/assets/"]; [None] when it falls through to the later branches. *)
Definition static_asset (c : Config) (pathname : string) : option HttpResponse :=
  let fileName := String.substring 8 (String.length pathname - 8) pathname in
  if negb (String.eqb fileName "") && negb (includes fileName "..") then
    let fullPath := Path.join (ASSETS_DIR c) fileName in
    let normalizedPath := Path.normalize fullPath in
    let normalizedAssetsDir := Path.normalize (ASSETS_DIR c) in
    let isWithinAssetsDir := String.prefix (normalizedAssetsDir ++ "/") normalizedPath in
    if isWithinAssetsDir && exists_sync (cfg_fs c) normalizedPath then
      match fs_stat (cfg_fs c) normalizedPath with
      | Some (FFile _) => Some (serveStaticFile c fileName (content_type_of fileName))
      | _ => None
      end
    else None
  else None.

(** An HTTP request: the method, the URL and the outcome of
    [JSON.parse] on the body.  [req_url] is [None] when [req.url] is
    missing or empty; otherwise it is the outcome of
    [new URL(req.url, "http://" + host)]: [Some None] when that
    constructor throws (e.g. for [req.url = "//"] or a Host header with an
    invalid port), [Some (Some (pathname, query))] when it succeeds. *)
Record HttpRequest := {
  req_method : option string;
  req_url : option (option (string * list (string * string)));
  req_body : option jval
}.

(** What a new SSE connection draws: the transport's session id, the
    identities of the new server and transport, and whether connecting
    them succeeds. *)
Record SseOpen := {
  new_session_id : string;
  new_server : nat;
  new_transport : nat;
  connect_ok : bool
}.

(** The request listener of [httpServer]; a [URL] constructor that throws
    is caught by the outer [catch], which answers 500 (no header has been
    sent yet). *)
Definition dispatch (c : Config) (project_root : string) (ss : sessions) (o : SseOpen)
    (rq : HttpRequest) : HttpResponse * sessions :=
  let is m := bool_decide (req_method rq = Some m) in
  match req_url rq with
  | None => (Plain 400 "Missing URL", ss)
  | Some None => (Plain 500 "Internal Server Error", ss)
  | Some (Some (pathname, query)) =>
      if is "OPTIONS" then (Preflight, ss)
      else if is "GET" && String.eqb pathname ssePath then
        handleSseRequest ss (new_session_id o) (new_server o) (new_transport o) (connect_ok o)
      else if is "POST" && String.eqb pathname postPath then
        handlePostMessage ss query
      else if is "POST" && String.eqb pathname "/calculate" then
        (handleCalculateApi (req_body rq), ss)
      else
        let static :=
          if is "GET" && String.prefix "/assets/" pathname
          then static_asset c pathname else None in
        match static with
        | Some r => (r, ss)
        | None =>
            if is "GET" && String.eqb pathname "/" then
              let p := Path.join project_root "index.html" in
              match fs_stat (cfg_fs c) p with
              | Some (FFile t) => (FileStream p "text/html" t, ss)
              | Some FDir => (StreamError p, ss)
              | None => (Plain 404 "index.html not found", ss)
              end
            else if is "GET" && String.eqb pathname "/.well-known/openai-apps-challenge" then
              let p := Path.join (Path.join project_root ".well-known") "openai-apps-challenge" in
              match fs_stat (cfg_fs c) p with
              | Some (FFile t) => (FileStream p "text/plain" t, ss)
              | Some FDir => (StreamError p, ss)
              | None => (Plain 404 "Verification file not found", ss)
              end
            else (Plain 404 "Not Found", ss)
        end
  end.

(* ------------------------------------------------------------------ *)
(** ** Concrete configurations used by the examples *)

Definition ex_fs : filesystem := fun p =>
  if String.eqb p "/app/assets" then Some FDir
  else if String.eqb p "/app/assets/add.js" then Some (FFile "console.log(1)")
  else if String.eqb p "/app/assets/add.html" then Some (FFile "")
  else if String.eqb p "/etc/passwd" then Some (FFile "root:x:0:0")
  else None.

Definition ex_widgets : list CalculatorWidget :=
  mk_widgets "<p>add</p>" "<p>sub</p>" "<p>mul</p>" "<p>div</p>" "<p>super</p>".

Definition ex_config : Config :=
  {| cfg_fs := ex_fs; ASSETS_DIR := "/app/assets"; cfg_env := None;
     initial_widgets := ex_widgets |}.

Definition ex_open : SseOpen :=
  {| new_session_id := "4f1c"; new_server := 1; new_transport := 1; connect_ok := true |}.

Definition post_request (q : list (string * string)) (body : option jval) : HttpRequest :=
  {| req_method := Some "POST"; req_url := Some (Some (postPath, q)); req_body := body |}.

Definition get_request (pathname : string) : HttpRequest :=
  {| req_method := Some "GET"; req_url := Some (Some (pathname, [])); req_body := None |}.

Definition num_args (a b : float) : option (list (string * jval)) :=
  Some [("a", JNum a); ("b", JNum b)].

Definition super_args (a b : float) (op : string) : option (list (string * jval)) :=
  Some [("a", JNum a); ("b", JNum b); ("operation", JStr op)].

(** The four operations of the calculator tools. *)
Inductive Operation := OpAdd | OpSubtract | OpMultiply | OpDivide.

Definition op_name (op : Operation) : string :=
  match op with
  | OpAdd => "add" | OpSubtract => "subtract"
  | OpMultiply => "multiply" | OpDivide => "divide"
  end.

(* ------------------------------------------------------------------ *)
(** ** Session close and the asset directory *)

(** [path.resolve(base, ...segs)] for an absolute [base] (both [__dirname]
    and [process.cwd()] are absolute): the arguments joined by ["/"] and
    normalised, without a trailing separator except for the root. *)
Definition resolve (base : string) (segs : list string) : string :=
  let p := Path.normalize (String.concat "/" (base :: segs)) in
  if Path.ends_with_slash p && negb (String.eqb p "/")
  then String.substring 0 (String.length p - 1) p else p.

(** The loop [for (const possiblePath of possiblePaths)] returning the
    first path for which [fs.existsSync] holds. *)
Fixpoint first_existing (fs : filesystem) (possiblePaths : list string) : option string :=
  match possiblePaths with
  | [] => None
  | p :: rest => if exists_sync fs p then Some p else first_existing fs rest
  end.

Definition possiblePaths (dirname cwd : string) : list string :=
  [resolve dirname [".."; "assets"]; resolve cwd ["assets"]; resolve dirname ["assets"]].

(** The initialiser of [ASSETS_DIR]; [dirname] is [__dirname], [cwd] is
    [process.cwd()]. *)
Definition assets_dir_init (fs : filesystem) (dirname cwd : string) : string :=
  match first_existing fs (possiblePaths dirname cwd) with
  | Some p => p
  | None => resolve dirname [".."; "assets"]
  end.

(* ------------------------------------------------------------------ *)
(** ** Facts about [path.normalize] *)

Module PathFacts.
Import Path.

Fixpoint has_slash (s : string) : bool :=
  match s with
  | EmptyString => false
  | String c s' => Ascii.eqb c "/"%char || has_slash s'
  end.

Definition seg_ok (x : string) : Prop := x <> "" /\ x <> "." /\ has_slash x = false.

Inductive dots_only : list string -> Prop :=
  | dots_nil : dots_only []
  | dots_cons st : dots_only st -> dots_only (".." :: st).

(** The stacks [normalizeString] builds: kept segments over a bottom run
    of [".."] that only a relative path may have. *)
Inductive stack_ok (allow : bool) : list string -> Prop :=
  | stack_dots st : allow = true -> dots_only st -> stack_ok allow st
  | stack_nil : stack_ok allow []
  | stack_seg x st : seg_ok x -> x <> ".." -> stack_ok allow st -> stack_ok allow (x :: st).

Definition head_empty (l : list string) : bool :=
  match l with "" :: _ => true | _ => false end.

Definition last_empty (l : list string) : bool :=
  match last l with Some "" => true | _ => false end.

Definition render (is_abs trailing : bool) (st : list string) : string :=
  let p := String.concat "/" (rev st) in
  if String.eqb p "" then
    (if is_abs then "/" else if trailing then "./" else ".")
  else
    let p := if trailing then p ++ "/" else p in
    if is_abs then "/" ++ p else p.

Lemma normalize_render (s : string) :
  s <> "" ->
  normalize s = render (starts_with_slash s) (ends_with_slash s)
                  (foldl (norm_step (negb (starts_with_slash s))) [] (split_slash s)).
Proof.
  intros Hs. unfold normalize, render.
  destruct (String.eqb_spec s "") as [E|_]; [contradiction | reflexivity].
Qed.

Lemma split_slash_nonempty (s : string) : split_slash s <> [].
Proof.
  induction s as [|c s IH]; cbn; [discriminate|].
  destruct (Ascii.eqb c "/"%char); [discriminate|].
  destruct (split_slash s); discriminate.
Qed.

Lemma split_slash_single_empty (s : string) : split_slash s = [""] -> s = "".
Proof.
  destruct s as [|c s]; cbn; [reflexivity|].
  destruct (Ascii.eqb c "/"%char).
  - intros [= H]. destruct (split_slash_nonempty s H).
  - destruct (split_slash s) as [|r rs]; intros H; discriminate.
Qed.

Lemma split_slash_no_slash (s : string) : Forall (fun x => has_slash x = false) (split_slash s).
Proof.
  induction s as [|c s IH]; cbn; [repeat constructor|].
  destruct (Ascii.eqb c "/"%char) eqn:Ec; [constructor; [reflexivity | exact IH]|].
  destruct (split_slash s) as [|r rs]; [repeat constructor; cbn; rewrite Ec; reflexivity|].
  inversion IH as [|? ? Hr Hrs]; subst. constructor; [cbn; rewrite Ec, Hr; reflexivity | exact Hrs].
Qed.

Lemma split_slash_plain (x : string) : has_slash x = false -> split_slash x = [x].
Proof.
  induction x as [|c x IH]; cbn; [reflexivity|].
  destruct (Ascii.eqb c "/"%char); [discriminate|]. cbn. intros H. rewrite IH by exact H.
  reflexivity.
Qed.

Lemma split_slash_seg_app (x s : string) :
  has_slash x = false -> split_slash (x ++ String "/"%char s) = x :: split_slash s.
Proof.
  induction x as [|c x IH]; [reflexivity|]. intros H. cbn in H.
  destruct (Ascii.eqb c "/"%char) eqn:Ec; [discriminate|].
  change (String c x ++ String "/"%char s) with (String c (x ++ String "/"%char s)).
  cbn [split_slash]. rewrite Ec, IH by exact H. reflexivity.
Qed.

Lemma split_slash_app_slash (s : string) : split_slash (s ++ "/") = (split_slash s ++ [""])%list.
Proof.
  induction s as [|c s IH]; [reflexivity|].
  change (String c s ++ "/") with (String c (s ++ "/")). cbn [split_slash].
  rewrite IH. destruct (Ascii.eqb c "/"%char); [reflexivity|].
  pose proof (split_slash_nonempty s) as Hne.
  destruct (split_slash s); [contradiction | reflexivity].
Qed.

Lemma split_slash_concat (l : list string) :
  l <> [] -> Forall (fun x => has_slash x = false) l -> split_slash (String.concat "/" l) = l.
Proof.
  induction l as [|x l IH]; [contradiction|]. intros _ Hall.
  inversion Hall as [|? ? Hx Hl]; subst.
  destruct l as [|y l]; [apply split_slash_plain, Hx|].
  change (String.concat "/" (x :: y :: l)) with
    (x ++ String "/"%char (String.concat "/" (y :: l))).
  rewrite split_slash_seg_app by exact Hx. f_equal. apply IH; [discriminate | exact Hl].
Qed.

Lemma starts_with_slash_split (s : string) :
  s <> "" -> starts_with_slash s = head_empty (split_slash s).
Proof.
  destruct s as [|c s]; [contradiction|]. intros _. cbn.
  destruct (Ascii.eqb c "/"%char); [reflexivity|].
  destruct (split_slash s); reflexivity.
Qed.

Lemma ends_with_slash_split (s : string) :
  s <> "" -> ends_with_slash s = last_empty (split_slash s).
Proof.
  induction s as [|c s IH]; [contradiction|]. intros _.
  destruct s as [|c' s'].
  - cbn. destruct (Ascii.eqb c "/"%char); reflexivity.
  - change (ends_with_slash (String c (String c' s'))) with (ends_with_slash (String c' s')).
    rewrite IH by discriminate.
    change (split_slash (String c (String c' s'))) with
      (if Ascii.eqb c "/"%char then "" :: split_slash (String c' s')
       else match split_slash (String c' s') with
            | r :: rs => String c r :: rs
            | [] => [String c ""]
            end).
    pose proof (split_slash_nonempty (String c' s')) as Hne.
    pose proof (split_slash_single_empty (String c' s')) as Hsingle.
    destruct (Ascii.eqb c "/"%char).
    + unfold last_empty. destruct (split_slash (String c' s')); [contradiction | reflexivity].
    + unfold last_empty.
      destruct (split_slash (String c' s')) as [|r [|r' rs]]; [contradiction| |reflexivity].
      cbn. destruct r; [exfalso; discriminate (Hsingle eq_refl) | reflexivity].
Qed.
Lemma stack_ok_tail (allow : bool) (x : string) (st : list string) :
  stack_ok allow (x :: st) -> stack_ok allow st.
Proof.
  intros H. inversion H as [? Ha Hd| |]; subst.
  - inversion Hd; subst. apply stack_dots; [reflexivity | assumption].
  - assumption.
Qed.

Lemma dotdot_seg_ok : seg_ok "..".
Proof. split; [discriminate | split; [discriminate | reflexivity]]. Qed.

Lemma stack_ok_all (allow : bool) (st : list string) : stack_ok allow st -> Forall seg_ok st.
Proof.
  induction 1 as [st _ Hd| |x st Hx _ _ IH]; [|constructor|constructor; assumption].
  induction Hd; constructor; [apply dotdot_seg_ok | assumption].
Qed.

Lemma norm_step_ok (allow : bool) (st : list string) (seg : string) :
  stack_ok allow st -> has_slash seg = false -> stack_ok allow (norm_step allow st seg).
Proof.
  intros Hst Hseg. unfold norm_step.
  destruct (String.eqb_spec seg "") as [->|Hne]; [exact Hst|].
  destruct (String.eqb_spec seg ".") as [->|Hnd]; [exact Hst|]. cbn.
  destruct (String.eqb_spec seg "..") as [->|Hdd].
  - destruct st as [|x st].
    + destruct allow eqn:Ea; [apply stack_dots; [reflexivity | repeat constructor] | exact Hst].
    + destruct (String.eqb_spec x "..") as [->|Hx].
      * destruct allow eqn:Ea; [|exact Hst].
        inversion Hst as [? _ Hd| |? ? _ Hn _]; subst; [|contradiction].
        apply stack_dots; [reflexivity | constructor; exact Hd].
      * eapply stack_ok_tail; exact Hst.
  - apply stack_seg; [split; [exact Hne | split; [exact Hnd | exact Hseg]] | exact Hdd | exact Hst].
Qed.

Lemma foldl_norm_ok (allow : bool) (l : list string) (st : list string) :
  stack_ok allow st -> Forall (fun x => has_slash x = false) l ->
  stack_ok allow (foldl (norm_step allow) st l).
Proof.
  revert st. induction l as [|x l IH]; intros st Hst Hl; [exact Hst|].
  inversion Hl; subst. cbn. apply IH; [apply norm_step_ok|]; assumption.
Qed.

Lemma norm_step_push (allow : bool) (x : string) (st : list string) :
  stack_ok allow (x :: st) -> norm_step allow st x = x :: st.
Proof.
  intros H. pose proof (stack_ok_all _ _ H) as Hall. inversion Hall as [|? ? [Hx1 [Hx2 _]] _]; subst.
  unfold norm_step.
  destruct (String.eqb_spec x "") as [E|_]; [contradiction|].
  destruct (String.eqb_spec x ".") as [E|_]; [contradiction|]. cbn.
  destruct (String.eqb_spec x "..") as [->|Hdd]; [|reflexivity].
  inversion H as [? Ha Hd| |? ? _ Hn _]; subst; [|contradiction].
  inversion Hd as [|? Hd']; subst.
  destruct st as [|y st]; [reflexivity|].
  inversion Hd'; subst. reflexivity.
Qed.

Lemma foldl_norm_rev (allow : bool) (st : list string) :
  stack_ok allow st -> foldl (norm_step allow) [] (rev st) = st.
Proof.
  induction st as [|x st IH]; intros H; [reflexivity|].
  cbn. rewrite foldl_app. cbn. rewrite IH by (eapply stack_ok_tail; exact H).
  apply norm_step_push, H.
Qed.

Lemma norm_step_empty_seg (allow : bool) (st : list string) : norm_step allow st "" = st.
Proof. reflexivity. Qed.

Lemma seg_ok_no_slash (l : list string) :
  Forall seg_ok l -> Forall (fun x => has_slash x = false) l.
Proof. intros H. eapply Forall_impl; [exact H|]. intros x (_ & _ & Hx). exact Hx. Qed.

Lemma last_seg_ok (l : list string) :
  Forall seg_ok l -> l <> [] -> exists x, last l = Some x /\ seg_ok x.
Proof.
  induction l as [|x l IH]; intros Hall Hne; [contradiction|].
  inversion Hall; subst. destruct l as [|y l]; [exists x; split; [reflexivity | assumption]|].
  destruct IH as (z & Hz & Hok); [assumption | discriminate |].
  exists z. split; [exact Hz | exact Hok].
Qed.

Lemma render_idem (is_abs trailing : bool) (st : list string) :
  stack_ok (negb is_abs) st ->
  normalize (render is_abs trailing st) = render is_abs trailing st.
Proof.
  intros Hst.
  pose proof (stack_ok_all _ _ Hst) as Hall.
  assert (Hrall : Forall seg_ok (rev st)) by (apply Forall_rev; exact Hall).
  destruct (String.eqb_spec (String.concat "/" (rev st)) "") as [Ep|Ep].
  { unfold render. rewrite Ep. destruct is_abs, trailing; reflexivity. }
  assert (Hrev : rev st <> []) by (intros E; apply Ep; rewrite E; reflexivity).
  set (p := String.concat "/" (rev st)) in *.
  assert (Hp : split_slash p = rev st)
    by (apply split_slash_concat; [exact Hrev | apply seg_ok_no_slash, Hrall]).
  set (q := if trailing then p ++ "/" else p).
  assert (Ho : render is_abs trailing st = if is_abs then "/" ++ q else q).
  { unfold render. fold p. destruct (String.eqb_spec p "") as [E|_]; [contradiction|].
    reflexivity. }
  assert (Hq : split_slash q = (rev st ++ (if trailing then [""] else []))%list).
  { unfold q. destruct trailing; [rewrite split_slash_app_slash, Hp | rewrite Hp, app_nil_r];
    reflexivity. }
  assert (Hso : split_slash (render is_abs trailing st) =
                ((if is_abs then [""] else []) ++ rev st ++ (if trailing then [""] else []))%list).
  { rewrite Ho. destruct is_abs.
    - change ("/" ++ q) with ("" ++ String "/"%char q).
      rewrite split_slash_seg_app, Hq by reflexivity. reflexivity.
    - exact Hq. }
  assert (Hne : render is_abs trailing st <> "").
  { intros E. rewrite E in Hso. cbn in Hso.
    destruct (rev st) as [|x r] eqn:Er; [contradiction|].
    inversion Hrall as [|? ? (Hx & _) _]; subst.
    destruct is_abs; cbn in Hso.
    - injection Hso as Hr. discriminate Hr.
    - injection Hso as Hx' _. apply Hx. symmetry. exact Hx'. }
  rewrite (normalize_render _ Hne).
  rewrite (starts_with_slash_split _ Hne), (ends_with_slash_split _ Hne), Hso.
  assert (Hh : head_empty ((if is_abs then [""] else []) ++ rev st ++
                           (if trailing then [""] else []))%list = is_abs).
  { destruct is_abs; [reflexivity|]. cbn.
    destruct (rev st) as [|x r] eqn:Er; [contradiction|].
    inversion Hrall as [|? ? (Hx & _) _]; subst. cbn.
    destruct x; [contradiction | reflexivity]. }
  assert (Hl : last_empty ((if is_abs then [""] else []) ++ rev st ++
                           (if trailing then [""] else []))%list = trailing).
  { unfold last_empty. rewrite app_assoc.
    destruct trailing; [rewrite last_snoc; reflexivity|]. rewrite app_nil_r.
    destruct (last_seg_ok (rev st) Hrall Hrev) as (x & Hx & (Hx1 & _)).
    destruct is_abs; cbn [app].
    - rewrite last_cons. rewrite Hx. destruct x; [contradiction | reflexivity].
    - rewrite Hx. destruct x; [contradiction | reflexivity]. }
  rewrite Hh, Hl.
  rewrite foldl_app, foldl_app.
  replace (foldl (norm_step (negb is_abs)) [] (if is_abs then [""] else [])) with (@nil string)
    by (destruct is_abs; reflexivity).
  rewrite foldl_norm_rev by exact Hst.
  destruct trailing; reflexivity.
Qed.

(** [path.normalize] is idempotent. *)
Lemma normalize_idem (s : string) : normalize (normalize s) = normalize s.
Proof.
  destruct (String.eqb_spec s "") as [->|Hs]; [reflexivity|].
  rewrite (normalize_render s Hs). apply render_idem.
  apply foldl_norm_ok; [apply stack_nil | apply split_slash_no_slash].
Qed.

(** The result of [path.join] is normalised. *)
Lemma normalize_join (a b : string) : normalize (join a b) = join a b.
Proof.
  unfold join. destruct (String.eqb _ ""); [reflexivity | apply normalize_idem].
Qed.

End PathFacts.

(* ------------------------------------------------------------------ *)
(** ** Static assets *)

Lemma prefix_app_inv (s1 s2 : string) :
  String.prefix s1 s2 = true -> exists r, s2 = s1 ++ r.
Proof.
  revert s2. induction s1 as [|c s1 IH]; intros s2 H; [exists s2; reflexivity|].
  destruct s2 as [|c' s2]; [discriminate|]. cbn in H.
  destruct (Ascii.ascii_dec c c') as [<-|]; [|discriminate].
  destruct (IH s2 H) as [r ->]. exists r. reflexivity.
Qed.

Lemma ends_with_slash_app_slash (s : string) : Path.ends_with_slash (s ++ "/") = true.
Proof.
  induction s as [|c s IH]; [reflexivity|].
  change (String c s ++ "/") with (String c (s ++ "/")). cbn [Path.ends_with_slash].
  destruct (s ++ "/") as [|a s0] eqn:E; [destruct s; discriminate | exact IH].
Qed.

Lemma fs_stat_file_no_slash (fs : filesystem) (p content : string) :
  fs_stat fs p = Some (FFile content) -> Path.ends_with_slash p = false.
Proof.
  unfold fs_stat. destruct (Path.ends_with_slash p); [|reflexivity].
  destruct (fs _) as [[|]|]; discriminate.
Qed.

(** A GET under [/assets/] is answered by the static-asset branch, or
    falls through to the final 404. *)
Lemma dispatch_assets (c : Config) (project_root : string) (ss : sessions) (o : SseOpen)
    (pathname : string) :
  String.prefix "/assets/" pathname = true ->
  dispatch c project_root ss o (get_request pathname) =
  (match static_asset c pathname with Some r => r | None => Plain 404 "Not Found" end, ss).
Proof.
  intros H. pose proof H as H'. apply prefix_app_inv in H' as [rest ->].
  unfold dispatch, get_request. cbn -[static_asset String.prefix].
  rewrite H. cbn -[static_asset].
  destruct (static_asset c _); reflexivity.
Qed.

(* ------------------------------------------------------------------ *)
(** * Properties *)

Ltac call_simpl :=
  cbn -[show basicToolInputParser superCalculatorInputParser PrimFloat.is_nan
        PrimFloat.eqb PrimFloat.add PrimFloat.sub PrimFloat.mul PrimFloat.div].

Ltac parse_simpl Ha Hb :=
  unfold basicToolInputParser, superCalculatorInputParser, z_number; cbn -[show];
  rewrite ?Ha, ?Hb; cbn -[show PrimFloat.eqb PrimFloat.add PrimFloat.sub
                           PrimFloat.mul PrimFloat.div].

(** [b === 0] excludes NaN. *)
Lemma eqb_zero_not_nan (b : float) :
  PrimFloat.eqb b 0%float = true -> PrimFloat.is_nan b = false.
Proof.
  unfold PrimFloat.is_nan. rewrite !FloatAxioms.eqb_spec. intros H.
  destruct (Prim2SF b) as [s|s| |s m e]; try discriminate; try reflexivity.
  - destruct s; reflexivity.
  - assert (Hm : PosDef.Pos.compare_cont Eq m m = Eq) by apply Pos.compare_cont_refl.
    destruct s; cbn; rewrite ?Z.compare_refl, ?Hm; reflexivity.
Qed.

(** C1 (counterexample): [?sessionId=] gives a session id that is present
    and not a key of the session table, yet the request is answered 400
    (missing session id), not 404. *)
Lemma C1_empty_session_id_counterexample :
  search_get "sessionId" [("sessionId", "")] = Some "" /\
  (∅ : sessions) !! "" = None /\
  fst (dispatch ex_config "/app" ∅ ex_open (post_request [("sessionId", "")] None))
    = Plain 400 "Missing sessionId query parameter" /\
  fst (dispatch ex_config "/app" ∅ ex_open (post_request [("sessionId", "")] None))
    <> Plain 404 "Unknown session".
Proof. split; [reflexivity | split; [reflexivity | split; [reflexivity | discriminate]]]. Qed.

(** C1 (amended): a POST to /mcp/messages leaves the session table as it
    is; an absent or empty [sessionId] is answered 400, an id that is not
    a key of the table 404, and only a key of the table has the message
    forwarded to that session's transport. *)
Theorem dispatch_post_message (c : Config) (project_root : string) (ss : sessions)
    (o : SseOpen) (q : list (string * string)) (body : option jval) :
  dispatch c project_root ss o (post_request q body) =
  (match search_get "sessionId" q with
   | None | Some "" => Plain 400 "Missing sessionId query parameter"
   | Some sid =>
       match ss !! sid with
       | None => Plain 404 "Unknown session"
       | Some s => Forward sid (sr_transport s)
       end
   end, ss).
Proof.
  unfold dispatch, post_request, handlePostMessage. cbn.
  destruct (search_get "sessionId" q) as [[|ch sid]|]; [reflexivity| |reflexivity].
  destruct (ss !! String ch sid); reflexivity.
Qed.

(** C2: [divide] and the super-calculator's [divide] fail with
    DivideByZero whenever [b === 0] (for [0] and [-0]): the check comes
    before the division, so no Infinity or NaN is returned. *)
Theorem divide_by_zero_fails (h1 h2 h3 h4 h5 : string) (a b : float) :
  PrimFloat.is_nan a = false -> PrimFloat.eqb b 0%float = true ->
  callTool (mk_widgets h1 h2 h3 h4 h5) "divide" (num_args a b) = inl DivideByZero /\
  callTool (mk_widgets h1 h2 h3 h4 h5) "super-calculator" (super_args a b "divide")
    = inl DivideByZero.
Proof.
  intros Ha Hz. pose proof (eqb_zero_not_nan b Hz) as Hb.
  split; call_simpl; parse_simpl Ha Hb; rewrite Hz; reflexivity.
Qed.

Lemma divide_by_zero_fails_witness :
  PrimFloat.is_nan 7%float = false /\ PrimFloat.eqb (-0)%float 0%float = true /\
  callTool ex_widgets "divide" (num_args 7 (-0)) = inl DivideByZero /\
  callTool ex_widgets "super-calculator" (super_args 7 (-0) "divide") = inl DivideByZero.
Proof.
  split; [reflexivity | split; [reflexivity |]].
  apply (divide_by_zero_fails "<p>add</p>" "<p>sub</p>" "<p>mul</p>" "<p>div</p>"
           "<p>super</p>" 7 (-0)); reflexivity.
Defined.

(** C3: add, subtract and multiply return [a+b], [a-b] and [a*b] with the
    structured payload {a, b, result} (the super-calculator adds its
    operation); the super-calculator on {a:10, b:4, operation:"divide"}
    returns {a:10, b:4, operation:"divide", result:2.5} and a text
    containing "quotient of 10 and 4". *)
Theorem arithmetic_results (h1 h2 h3 h4 h5 : string) (a b : float) :
  PrimFloat.is_nan a = false -> PrimFloat.is_nan b = false ->
  let reg := mk_widgets h1 h2 h3 h4 h5 in
  (exists r, callTool reg "add" (num_args a b) = inr r /\
     structuredContent r = {| sc_a := a; sc_b := b; sc_operation := None;
                              sc_result := (a + b)%float |}) /\
  (exists r, callTool reg "subtract" (num_args a b) = inr r /\
     structuredContent r = {| sc_a := a; sc_b := b; sc_operation := None;
                              sc_result := (a - b)%float |}) /\
  (exists r, callTool reg "multiply" (num_args a b) = inr r /\
     structuredContent r = {| sc_a := a; sc_b := b; sc_operation := None;
                              sc_result := (a * b)%float |}) /\
  (exists r, callTool reg "super-calculator" (super_args a b "add") = inr r /\
     structuredContent r = {| sc_a := a; sc_b := b; sc_operation := Some "add";
                              sc_result := (a + b)%float |}) /\
  (exists r, callTool reg "super-calculator" (super_args a b "subtract") = inr r /\
     structuredContent r = {| sc_a := a; sc_b := b; sc_operation := Some "subtract";
                              sc_result := (a - b)%float |}) /\
  (exists r, callTool reg "super-calculator" (super_args a b "multiply") = inr r /\
     structuredContent r = {| sc_a := a; sc_b := b; sc_operation := Some "multiply";
                              sc_result := (a * b)%float |}) /\
  (exists r, callTool reg "super-calculator" (super_args 10 4 "divide") = inr r /\
     structuredContent r = {| sc_a := 10; sc_b := 4; sc_operation := Some "divide";
                              sc_result := 2.5 |} /\
     content_text r = "The quotient of 10 and 4 is 2.5. Super calculator rendered!" /\
     includes (content_text r) "quotient of 10 and 4" = true).
Proof.
  intros Ha Hb reg.
  repeat split;
    match goal with
    | |- exists r, callTool _ _ (super_args 10 4 _) = inr r /\ _ =>
        eexists; split; [vm_compute; reflexivity | vm_compute; repeat split]
    | |- exists r, _ = inr r /\ _ =>
        eexists; split; [subst reg; call_simpl; parse_simpl Ha Hb; reflexivity | reflexivity]
    end.
Qed.

Lemma arithmetic_results_witness :
  PrimFloat.is_nan 6%float = false /\ PrimFloat.is_nan 3%float = false /\
  exists r, callTool ex_widgets "add" (num_args 6 3) = inr r /\
    structuredContent r = {| sc_a := 6; sc_b := 3; sc_operation := None;
                             sc_result := (6 + 3)%float |}.
Proof.
  split; [reflexivity | split; [reflexivity |]].
  exact (proj1 (arithmetic_results "<p>add</p>" "<p>sub</p>" "<p>mul</p>" "<p>div</p>"
                  "<p>super</p>" 6 3 eq_refl eq_refl)).
Defined.

Definition registered_ids : list string :=
  ["add"; "subtract"; "multiply"; "divide"; "super-calculator"].

Lemma z_number_Some (v : option jval) (x : float) :
  z_number v = Some x <-> v = Some (JNum x) /\ PrimFloat.is_nan x = false.
Proof.
  unfold z_number. split.
  - destruct v as [[]|]; try discriminate.
    destruct (PrimFloat.is_nan _) eqn:E; intros H; inversion H; subst; auto.
  - intros [-> ->]. reflexivity.
Qed.

Lemma z_operation_Some (v : option jval) (op : string) :
  z_operation v = Some op <-> v = Some (JStr op) /\ op ∈ operation_enum.
Proof.
  unfold z_operation. split.
  - destruct v as [[]|]; try discriminate.
    destruct (existsb _ _) eqn:E; intros H; inversion H; subst.
    split; [reflexivity|].
    apply existsb_exists in E as (y & Hy & Hq). apply String.eqb_eq in Hq. subst.
    by apply list_elem_of_In.
  - intros [-> Hin]. apply list_elem_of_In in Hin.
    assert (existsb (String.eqb op) operation_enum = true) as ->
      by (apply existsb_exists; exists op; split; [done | apply String.eqb_refl]).
    reflexivity.
Qed.

Lemma basic_parser_None (raw : list (string * jval)) :
  basicToolInputParser raw = None <->
  ~ ((exists x, obj_get "a" raw = Some (JNum x) /\ PrimFloat.is_nan x = false) /\
     (exists y, obj_get "b" raw = Some (JNum y) /\ PrimFloat.is_nan y = false)).
Proof.
  unfold basicToolInputParser.
  destruct (z_number (obj_get "a" raw)) as [x|] eqn:Ea;
  destruct (z_number (obj_get "b" raw)) as [y|] eqn:Eb; cbn; split; try done;
  try (intros _ (Hx & Hy);
       first [ destruct Hx as [x' Hx]; apply z_number_Some in Hx; congruence
             | destruct Hy as [y' Hy]; apply z_number_Some in Hy; congruence ]).
  intros H. exfalso. apply H. apply z_number_Some in Ea, Eb. split; eauto.
Qed.

Lemma super_parser_None (raw : list (string * jval)) :
  superCalculatorInputParser raw = None <->
  ~ ((exists x, obj_get "a" raw = Some (JNum x) /\ PrimFloat.is_nan x = false) /\
     (exists y, obj_get "b" raw = Some (JNum y) /\ PrimFloat.is_nan y = false) /\
     (exists op, obj_get "operation" raw = Some (JStr op) /\ op ∈ operation_enum)).
Proof.
  unfold superCalculatorInputParser.
  destruct (z_number (obj_get "a" raw)) as [x|] eqn:Ea;
  destruct (z_number (obj_get "b" raw)) as [y|] eqn:Eb;
  destruct (z_operation (obj_get "operation" raw)) as [op|] eqn:Eo; cbn; split; try done;
  try (intros _ (Hx & Hy & Ho);
       first [ destruct Hx as [x' Hx]; apply z_number_Some in Hx; congruence
             | destruct Hy as [y' Hy]; apply z_number_Some in Hy; congruence
             | destruct Ho as [o' Ho]; apply z_operation_Some in Ho; congruence ]).
  intros H. exfalso. apply H.
  apply z_number_Some in Ea, Eb. apply z_operation_Some in Eo. eauto 10.
Qed.

Lemma widgetsById_None (h1 h2 h3 h4 h5 name : string) :
  widgetsById (mk_widgets h1 h2 h3 h4 h5) name = None <-> name ∉ registered_ids.
Proof.
  unfold widgetsById, registered_ids. cbn -[String.eqb].
  rewrite !elem_of_cons, elem_of_nil.
  repeat case String.eqb_spec; intros; subst; split; intros H; try discriminate;
    try reflexivity; first [ exfalso; apply H; intuition auto | intuition congruence ].
Qed.

Lemma switches_not_unknown_tool (name id : string) (p : ParsedArgs) :
  super_switch p <> inl (UnknownTool name) /\ basic_switch id p <> inl (UnknownTool name).
Proof.
  unfold super_switch, basic_switch.
  split; repeat case_match; discriminate.
Qed.

Lemma callTool_found_not_unknown (reg : list CalculatorWidget) (name : string)
    (args : option (list (string * jval))) (i : nat) (w : CalculatorWidget) :
  widgetsById reg name = Some i -> reg !! i = Some w ->
  callTool reg name args <> inl (UnknownTool name).
Proof.
  intros H1 H2. unfold callTool. rewrite H1. cbn [mbind option_bind]. rewrite H2.
  destruct (if String.eqb (wid w) "super-calculator" then _ else _) as [p|];
    [|discriminate].
  destruct (switches_not_unknown_tool name (wid w) p) as [Hs Hb].
  destruct (String.eqb (wid w) "super-calculator");
    [destruct (super_switch p) as [e|[r t]] eqn:E
    |destruct (basic_switch (wid w) p) as [e|[r t]] eqn:E]; try discriminate;
    intros [= ->]; congruence.
Qed.

(** C5: a name that is not a registered widget id fails with UnknownTool
    and a registered one never does; for a registered tool, arguments the
    tool's parser rejects fail with InvalidArguments before any
    arithmetic; the basic parser rejects exactly the arguments without
    numeric (non-NaN) [a] and [b], the super-calculator's parser also
    those without an [operation] in {add, subtract, multiply, divide}. *)
Theorem callTool_rejects_before_computing (h1 h2 h3 h4 h5 name : string)
    (args : option (list (string * jval))) :
  let reg := mk_widgets h1 h2 h3 h4 h5 in
  let raw := default [] args in
  (name ∉ registered_ids -> callTool reg name args = inl (UnknownTool name)) /\
  (name ∈ registered_ids -> callTool reg name args <> inl (UnknownTool name)) /\
  (name ∈ ["add"; "subtract"; "multiply"; "divide"] ->
     basicToolInputParser raw = None -> callTool reg name args = inl InvalidArguments) /\
  (superCalculatorInputParser raw = None ->
     callTool reg "super-calculator" args = inl InvalidArguments) /\
  (basicToolInputParser raw = None <->
     ~ ((exists x, obj_get "a" raw = Some (JNum x) /\ PrimFloat.is_nan x = false) /\
        (exists y, obj_get "b" raw = Some (JNum y) /\ PrimFloat.is_nan y = false))) /\
  (superCalculatorInputParser raw = None <->
     ~ ((exists x, obj_get "a" raw = Some (JNum x) /\ PrimFloat.is_nan x = false) /\
        (exists y, obj_get "b" raw = Some (JNum y) /\ PrimFloat.is_nan y = false) /\
        (exists op, obj_get "operation" raw = Some (JStr op) /\ op ∈ operation_enum))).
Proof.
  intros reg raw. split; [|split; [|split; [|split; [|split]]]].
  - intros Hn. apply (widgetsById_None h1 h2 h3 h4 h5) in Hn.
    unfold callTool. subst reg. rewrite Hn. reflexivity.
  - unfold registered_ids. rewrite !elem_of_cons, elem_of_nil. intros Hn. subst reg.
    repeat (destruct Hn as [-> | Hn];
            [eapply callTool_found_not_unknown; reflexivity|]); done.
  - rewrite !elem_of_cons, elem_of_nil. intros Hn Hp.
    subst reg; repeat (destruct Hn as [-> | Hn]; [call_simpl; fold raw; rewrite Hp; reflexivity|]);
    done.
  - intros Hp. subst reg. call_simpl. fold raw. rewrite Hp. reflexivity.
  - apply basic_parser_None.
  - apply super_parser_None.
Qed.

(** C10: for each operation, the basic tool and the super-calculator
    compute the same result and the same summary phrase and fail under the
    same condition (divide with [b === 0]); they differ only in the
    widget's response text and metadata and in the [operation] field of
    the super-calculator's payload. *)
Theorem basic_and_super_agree (h1 h2 h3 h4 h5 : string) (op : Operation) (a b : float) :
  PrimFloat.is_nan a = false -> PrimFloat.is_nan b = false ->
  let reg := mk_widgets h1 h2 h3 h4 h5 in
  let basic := callTool reg (op_name op) (num_args a b) in
  let super := callTool reg "super-calculator" (super_args a b (op_name op)) in
  match basic, super with
  | inr r1, inr r2 =>
      sc_a (structuredContent r1) = sc_a (structuredContent r2) /\
      sc_b (structuredContent r1) = sc_b (structuredContent r2) /\
      sc_result (structuredContent r1) = sc_result (structuredContent r2) /\
      sc_operation (structuredContent r1) = None /\
      sc_operation (structuredContent r2) = Some (op_name op) /\
      exists phrase t1,
        content_text r1 =
          "The " ++ phrase ++ " is " ++ show (sc_result (structuredContent r1)) ++ ". " ++ t1 /\
        content_text r2 =
          "The " ++ phrase ++ " is " ++ show (sc_result (structuredContent r2)) ++ ". " ++
          "Super calculator rendered!"
  | inl e1, inl e2 => e1 = DivideByZero /\ e2 = DivideByZero
  | _, _ => False
  end /\
  ((exists e, basic = inl e) <-> op = OpDivide /\ PrimFloat.eqb b 0%float = true) /\
  ((exists e, super = inl e) <-> op = OpDivide /\ PrimFloat.eqb b 0%float = true).
Proof.
  intros Ha Hb reg basic super. subst reg basic super.
  destruct op; call_simpl; parse_simpl Ha Hb;
    [ .. | destruct (PrimFloat.eqb b 0%float) eqn:Hz; cbn -[show] ];
    (split; [ repeat split; eauto 6 | split; split;
              [ intros [e He]; discriminate | intros [Hop _]; discriminate
              | intros [e He]; discriminate | intros [Hop _]; discriminate ] ])
    || (split; [ repeat split | split; split; eauto; intros [_ ?]; discriminate ])
    || (split; [ repeat split; eauto 6 | split; split;
              [ intros [e He]; discriminate | intros [_ ?]; discriminate
              | intros [e He]; discriminate | intros [_ ?]; discriminate ] ]).
Qed.

Lemma basic_and_super_agree_witness :
  PrimFloat.is_nan 9%float = false /\ PrimFloat.is_nan 0%float = false /\
  (exists e, callTool ex_widgets "divide" (num_args 9 0) = inl e).
Proof.
  split; [reflexivity | split; [reflexivity |]].
  destruct (basic_and_super_agree "<p>add</p>" "<p>sub</p>" "<p>mul</p>" "<p>div</p>"
              "<p>super</p>" OpDivide 9 0 eq_refl eq_refl) as (_ & [_ H] & _).
  apply H. split; reflexivity.
Defined.

(** C7: for every widget, its Tool, Resource and ResourceTemplate entries
    carry the same descriptor metadata, [widgetDescriptorMeta] of that
    widget, and name the same widget. *)
Theorem descriptor_meta_agrees (env : option string) (ws : list CalculatorWidget) (i : nat) :
  tool_meta <$> tools env ws !! i = widgetDescriptorMeta env <$> ws !! i /\
  res_meta <$> resources env ws !! i = widgetDescriptorMeta env <$> ws !! i /\
  rt_meta <$> resourceTemplates env ws !! i = widgetDescriptorMeta env <$> ws !! i /\
  tool_name <$> tools env ws !! i = wid <$> ws !! i /\
  res_uri <$> resources env ws !! i = templateUri <$> ws !! i /\
  rt_uriTemplate <$> resourceTemplates env ws !! i = templateUri <$> ws !! i.
Proof.
  unfold tools, resources, resourceTemplates.
  rewrite !list_lookup_fmap. destruct (ws !! i); repeat split.
Qed.

Definition template_uris : list string :=
  ["ui://widget/add.html"; "ui://widget/subtract.html"; "ui://widget/multiply.html";
   "ui://widget/divide.html"; "ui://widget/super-calculator.html"].

Lemma widgetsByUri_None (h1 h2 h3 h4 h5 uri : string) :
  uri ∉ template_uris -> widgetsByUri (mk_widgets h1 h2 h3 h4 h5) uri = None.
Proof.
  unfold widgetsByUri, template_uris. cbn -[String.eqb].
  rewrite !elem_of_cons, elem_of_nil. intros Hn.
  repeat case String.eqb_spec; intros; subst; try reflexivity; exfalso; apply Hn; intuition auto.
Qed.

Lemma generated_html_nonempty (d name : string) : generated_html d name <> "".
Proof. unfold generated_html. cbn. discriminate. Qed.

(** C6 (counterexample): an existing but empty add.html is served as the
    empty text. *)
Lemma C6_empty_html_counterexample :
  exists rc, fst (readResource ex_config ex_widgets "ui://widget/add.html") = inr [rc] /\
    rc_mimeType rc = "text/html+skybridge" /\ rc_text rc = "".
Proof. eexists. split; [reflexivity | split; reflexivity]. Qed.

(** C6 (amended): ListResources lists every widget, each entry with the
    widget's templateUri, mimeType text/html+skybridge and the widget's
    descriptor metadata.  ReadResource fails with UnknownResource for a uri
    that is not a registered templateUri.  For the uri of a registered widget it
    re-reads the widget's HTML and, unless that read throws, returns one
    entry with that uri, mimeType text/html+skybridge, the metadata of the
    widget's ListResources entry and as text the HTML read; that HTML is
    the file's content when the file exists (possibly empty), a read error
    when the path is a directory, and the non-empty generated page when
    the file is missing. *)
Theorem readResource_result (fs : filesystem) (dir : string) (env : option string)
    (g1 g2 g3 g4 g5 h1 h2 h3 h4 h5 uri : string) :
  let c := {| cfg_fs := fs; ASSETS_DIR := dir; cfg_env := env;
              initial_widgets := mk_widgets g1 g2 g3 g4 g5 |} in
  let reg := mk_widgets h1 h2 h3 h4 h5 in
  (fst (handle c reg ListResourcesReq) = ResourcesResp (resources env (initial_widgets c)) /\
   length (resources env (initial_widgets c)) = length (initial_widgets c) /\
   forall i w, initial_widgets c !! i = Some w ->
     exists r, resources env (initial_widgets c) !! i = Some r /\
       res_uri r = templateUri w /\ res_mimeType r = "text/html+skybridge" /\
       res_meta r = widgetDescriptorMeta env w) /\
  (uri ∉ template_uris -> readResource c reg uri = (inl (UnknownResource uri), reg)) /\
  (forall i r, resources env (initial_widgets c) !! i = Some r -> res_uri r = uri ->
     exists w, reg !! i = Some w /\
       match readWidgetHtml fs dir env (wid w) with
       | None => fst (readResource c reg uri) = inl ReadError
       | Some h =>
           fst (readResource c reg uri) =
           inr [ {| rc_uri := uri; rc_mimeType := "text/html+skybridge";
                    rc_text := h; rc_meta := res_meta r |} ]
       end) /\
  (forall name, readWidgetHtml fs dir env name =
     match fs_stat fs (Path.join dir (name ++ ".html")) with
     | Some (FFile s) => Some s
     | Some FDir => None
     | None => Some (generated_html (widget_domain env) name)
     end) /\
  (forall d name, generated_html d name <> "").
Proof.
  intros c reg. split; [|split; [|split; [|split]]].
  - split; [reflexivity|]. split; [apply length_map|].
    intros i w Hw. exists (resource_of env w). unfold resources.
    rewrite list_lookup_fmap, Hw. repeat split.
  - intros Hn. unfold readResource. subst reg. rewrite widgetsByUri_None by exact Hn.
    reflexivity.
  - intros i r Hr Hu. subst c reg. cbn in Hr.
    do 5 (destruct i as [|i]; [injection Hr as <-; subst uri; eexists; split; [reflexivity|];
      unfold readResource; cbn -[readWidgetHtml widgetDescriptorMeta];
      destruct (readWidgetHtml _ _ _ _); reflexivity|]).
    discriminate.
  - intros name. unfold readWidgetHtml, exists_sync, read_file_sync.
    destruct (fs_stat fs _) as [[]|]; reflexivity.
  - apply generated_html_nonempty.
Qed.

(** C8 (counterexample): ReadResource replaces the [html] field of the
    add widget (read at start-up as "<p>add</p>") by the file's current
    content. *)
Lemma C8_html_reloaded_counterexample :
  html <$> ex_widgets !! 0 = Some "<p>add</p>" /\
  html <$> snd (handle ex_config ex_widgets (ReadResourceReq "ui://widget/add.html")) !! 0
    = Some "".
Proof. split; reflexivity. Qed.

(** C8 (amended): every protocol request leaves the [id], [title],
    [templateUri], [invoking], [invoked] and [responseText] fields of every
    widget unchanged; ListTools, ListResources, ListResourceTemplates and
    CallTool leave the widget store unchanged; ReadResource(uri) changes
    only the widget found for [uri], whose [html] becomes the freshly read
    HTML (nothing changes when the read throws). *)
Theorem handle_frame (c : Config) (reg : list CalculatorWidget) (rq : McpRequest) :
  let reg' := snd (handle c reg rq) in
  length reg' = length reg /\
  (forall i w w', reg !! i = Some w -> reg' !! i = Some w' ->
     wid w' = wid w /\ title w' = title w /\ templateUri w' = templateUri w /\
     invoking w' = invoking w /\ invoked w' = invoked w /\
     responseText w' = responseText w) /\
  match rq with
  | ReadResourceReq uri =>
      (forall i, widgetsByUri reg uri <> Some i -> reg' !! i = reg !! i) /\
      (forall i w, widgetsByUri reg uri = Some i -> reg !! i = Some w ->
         reg' !! i =
         Some (match readWidgetHtml (cfg_fs c) (ASSETS_DIR c) (cfg_env c) (wid w) with
               | Some h => {| wid := wid w; title := title w; templateUri := templateUri w;
                              invoking := invoking w; invoked := invoked w; html := h;
                              responseText := responseText w |}
               | None => w
               end))
  | _ => reg' = reg
  end.
Proof.
  intros reg'. subst reg'.
  destruct rq as [| | |uri|name args]; cbn -[readResource];
    try (split; [reflexivity | split; [intros i w w' H1 H2; rewrite H1 in H2;
                                         injection H2 as <-; tauto | reflexivity]]).
  unfold readResource.
  destruct (widgetsByUri reg uri) as [j|] eqn:Ej;
    [destruct (reg !! j) as [wj|] eqn:Ewj;
     [destruct (readWidgetHtml _ _ _ (wid wj)) as [h|] eqn:Eh|]|]; cbn.
  - split; [apply length_insert|]. split.
    + intros i w w' H1 H2. destruct (decide (i = j)) as [->|Hne].
      * rewrite list_lookup_insert_eq in H2 by (eapply lookup_lt_Some; eauto).
        rewrite Ewj in H1. injection H1 as <-. injection H2 as <-. cbn; tauto.
      * rewrite list_lookup_insert_ne in H2 by congruence.
        rewrite H1 in H2. injection H2 as <-. tauto.
    + split.
      * intros i Hi. rewrite list_lookup_insert_ne by congruence. reflexivity.
      * intros i w Hi Hw. injection Hi as <-. rewrite Ewj in Hw. injection Hw as <-.
        rewrite Eh. apply list_lookup_insert_eq. eapply lookup_lt_Some; eauto.
  - split; [reflexivity|]. split.
    + intros i w w' H1 H2. rewrite H1 in H2. injection H2 as <-. tauto.
    + split; [reflexivity|].
      intros i w Hi Hw. injection Hi as <-. rewrite Ewj in Hw. injection Hw as <-.
      rewrite Eh. exact Ewj.
  - split; [reflexivity|]. split.
    + intros i w w' H1 H2. rewrite H1 in H2. injection H2 as <-. tauto.
    + split; [reflexivity|].
      intros i w Hi Hw. injection Hi as <-. congruence.
  - split; [reflexivity|]. split.
    + intros i w w' H1 H2. rewrite H1 in H2. injection H2 as <-. tauto.
    + split; [reflexivity|]. intros i w Hi. discriminate.
Qed.

Definition calc_request (q : list (string * string)) (body : option jval) : HttpRequest :=
  {| req_method := Some "POST"; req_url := Some (Some ("/calculate", q)); req_body := body |}.

(** Property [k] of a parsed JSON value other than [null]. *)
Definition json_prop (v : jval) (k : string) : option jval :=
  match v with JObj fields => obj_get k fields | _ => None end.

Definition big : float := 0x1p1023%float.

(** C9 (counterexample): the valid JSON body [null] is answered
    {"error":"Invalid JSON"} (its [a] is not a number, so the claim
    expects "Invalid inputs"); and two numbers whose sum overflows are
    answered 200 with {"result":null}, not a number. *)
Lemma C9_null_and_overflow_counterexample :
  fst (dispatch ex_config "/app" ∅ ex_open (calc_request [] (Some JNull)))
    = Json 400 (err_body "Invalid JSON") /\
  fst (dispatch ex_config "/app" ∅ ex_open (calc_request [] (Some JNull)))
    <> Json 400 (err_body "Invalid inputs") /\
  PrimFloat.is_finite big = true /\
  fst (dispatch ex_config "/app" ∅ ex_open
         (calc_request [] (Some (JObj [("a", JNum big); ("b", JNum big)]))))
    = Json 200 (JObj [("result", JNull)]).
Proof. split; [reflexivity | split; [discriminate | split; reflexivity]]. Qed.

(** C9 (amended): POST /calculate leaves the session table unchanged and
    answers 400 {"error":"Invalid JSON"} when the body does not parse or
    parses to [null]; 400 {"error":"Invalid inputs"} when [a] or [b] of
    the parsed body is not a number (so for {a:"x", b:2}); and otherwise
    200 {"result": a+b}, a sum that is not finite being written as
    [null]. *)
Theorem calculate_endpoint (c : Config) (project_root : string) (ss : sessions)
    (o : SseOpen) (q : list (string * string)) (body : option jval) :
  let r := dispatch c project_root ss o (calc_request q body) in
  snd r = ss /\
  fst r =
    match body with
    | None | Some JNull => Json 400 (err_body "Invalid JSON")
    | Some v =>
        match json_prop v "a", json_prop v "b" with
        | Some (JNum x), Some (JNum y) =>
            Json 200 (JObj [("result", json_number (x + y)%float)])
        | _, _ => Json 400 (err_body "Invalid inputs")
        end
    end /\
  (forall x, PrimFloat.is_finite x = true -> json_number x = JNum x) /\
  fst (dispatch c project_root ss o
         (calc_request q (Some (JObj [("a", JStr "x"); ("b", JNum 2)]))))
    = Json 400 (err_body "Invalid inputs").
Proof.
  intros r. subst r. split; [|split; [|split]].
  - reflexivity.
  - cbn -[handleCalculateApi]. unfold handleCalculateApi, destructure, json_prop.
    destruct body as [[]|]; reflexivity.
  - intros x Hx. unfold json_number. rewrite Hx. reflexivity.
  - reflexivity.
Qed.

(** C4: for a GET under [/assets/], a file name containing [".."] or
    resolving outside the asset root is answered 404 [Not Found]; and
    whenever file content is served, it is the content of the regular file
    at the resolved path [path.join(ASSETS_DIR, fileName)], which lies
    strictly inside the asset root (it extends the normalised root followed
    by a separator, and is not that prefix itself). *)
Theorem static_assets_contained (c : Config) (project_root : string) (ss : sessions)
    (o : SseOpen) (pathname : string) :
  String.prefix "/assets/" pathname = true ->
  let fileName := String.substring 8 (String.length pathname - 8) pathname in
  let root := Path.normalize (ASSETS_DIR c) in
  let r := fst (dispatch c project_root ss o (get_request pathname)) in
  (includes fileName ".." = true -> r = Plain 404 "Not Found") /\
  (String.prefix (root ++ "/") (Path.normalize (Path.join (ASSETS_DIR c) fileName)) = false ->
     r = Plain 404 "Not Found") /\
  (forall p ct content, r = FileStream p ct content ->
     p = Path.join (ASSETS_DIR c) fileName /\
     String.prefix (root ++ "/") p = true /\
     p <> root ++ "/" /\
     Path.ends_with_slash p = false /\
     fs_stat (cfg_fs c) p = Some (FFile content)).
Proof.
  intros H fileName root r. unfold r.
  rewrite (dispatch_assets _ _ _ _ _ H). cbn [fst].
  unfold static_asset. fold fileName. fold root.
  rewrite PathFacts.normalize_join.
  split; [|split].
  - intros Hi. rewrite Hi. cbn [negb]. rewrite andb_false_r. reflexivity.
  - intros Hp. destruct (_ && _); [|reflexivity]. rewrite Hp. reflexivity.
  - intros p ct content.
    destruct (_ && _); [|discriminate].
    destruct (String.prefix (root ++ "/") _) eqn:Hpre; [|discriminate].
    destruct (exists_sync _ _) eqn:He; cbn [andb]; [|discriminate].
    destruct (fs_stat _ _) as [[content0|]|] eqn:Hst; try discriminate.
    unfold serveStaticFile. rewrite He, Hst. cbn [negb].
    intros [= <- <- <-].
    split; [reflexivity|]. split; [exact Hpre|]. split; [|split; [|exact Hst]].
    + intros E. apply fs_stat_file_no_slash in Hst.
      rewrite E, ends_with_slash_app_slash in Hst. discriminate.
    + eapply fs_stat_file_no_slash; exact Hst.
Qed.

Lemma static_assets_contained_witness :
  String.prefix "/assets/" "/assets/add.js" = true /\
  let fileName := String.substring 8 (String.length "/assets/add.js" - 8) "/assets/add.js" in
  let root := Path.normalize (ASSETS_DIR ex_config) in
  let r := fst (dispatch ex_config "/app" ∅ ex_open (get_request "/assets/add.js")) in
  (includes fileName ".." = true -> r = Plain 404 "Not Found") /\
  (String.prefix (root ++ "/")
     (Path.normalize (Path.join (ASSETS_DIR ex_config) fileName)) = false ->
     r = Plain 404 "Not Found") /\
  (forall p ct content, r = FileStream p ct content ->
     p = Path.join (ASSETS_DIR ex_config) fileName /\
     String.prefix (root ++ "/") p = true /\
     p <> root ++ "/" /\
     Path.ends_with_slash p = false /\
     fs_stat (cfg_fs ex_config) p = Some (FFile content)).
Proof.
  split; [reflexivity|].
  apply (static_assets_contained ex_config "/app" ∅ ex_open "/assets/add.js").
  reflexivity.
Defined.

(* ------------------------------------------------------------------ *)
(** ** Further properties of the server *)

Lemma handlePostMessage_sessions (ss : sessions) (q : list (string * string)) :
  snd (handlePostMessage ss q) = ss.
Proof.
  unfold handlePostMessage. repeat case_match; reflexivity.
Qed.

Lemma dispatch_sse (c : Config) (project_root : string) (ss : sessions) (o : SseOpen)
    (rq : HttpRequest) (q : list (string * string)) :
  req_method rq = Some "GET" -> req_url rq = Some (Some (ssePath, q)) ->
  dispatch c project_root ss o rq =
  handleSseRequest ss (new_session_id o) (new_server o) (new_transport o) (connect_ok o).
Proof.
  intros Hm Hu. unfold dispatch. rewrite Hu, Hm. reflexivity.
Qed.

(** A GET on [/mcp] registers the new session under its transport's id
    when connecting succeeds and answers with the open SSE stream; when
    connecting fails it answers 500 and no session is left under that id
    (a session previously stored under the same id is removed too).  No
    other entry of the session table changes. *)
Theorem sse_open_sessions (c : Config) (project_root : string) (ss : sessions) (o : SseOpen)
    (rq : HttpRequest) (q : list (string * string)) :
  req_method rq = Some "GET" -> req_url rq = Some (Some (ssePath, q)) ->
  let r := dispatch c project_root ss o rq in
  (connect_ok o = true ->
     fst r = SseStream (new_session_id o) /\
     snd r !! new_session_id o =
       Some {| sr_server := new_server o; sr_transport := new_transport o |}) /\
  (connect_ok o = false ->
     fst r = Plain 500 "Failed to establish SSE connection" /\
     snd r !! new_session_id o = None) /\
  (forall k, k <> new_session_id o -> snd r !! k = ss !! k).
Proof.
  intros Hm Hu r. unfold r. rewrite (dispatch_sse _ _ _ _ _ q Hm Hu).
  unfold handleSseRequest, sessions in *.
  split; [|split].
  - intros ->. cbn [fst snd]. split; [reflexivity | apply lookup_insert_eq].
  - intros ->. cbn [fst snd]. split; [reflexivity | apply lookup_delete_eq].
  - intros k Hk. destruct (connect_ok o); cbn [fst snd].
    + rewrite lookup_insert_ne by congruence. reflexivity.
    + rewrite lookup_delete_ne by congruence.
      rewrite lookup_insert_ne by congruence. reflexivity.
Qed.


(** Only a GET on [/mcp] changes the session table: every other request
    leaves it as it is. *)
Theorem only_sse_changes_sessions (c : Config) (project_root : string) (ss : sessions)
    (o : SseOpen) (rq : HttpRequest) :
  ~ (req_method rq = Some "GET" /\ exists q, req_url rq = Some (Some (ssePath, q))) ->
  snd (dispatch c project_root ss o rq) = ss.
Proof.
  intros H. unfold dispatch.
  destruct (req_url rq) as [[[pn q]|]|] eqn:Eu; [| reflexivity | reflexivity].
  destruct (bool_decide (req_method rq = Some "OPTIONS")); [reflexivity|].
  destruct (bool_decide (req_method rq = Some "GET") && String.eqb pn ssePath) eqn:Es.
  { exfalso. apply andb_true_iff in Es as [Eg Ep].
    apply bool_decide_eq_true in Eg. apply String.eqb_eq in Ep. subst. eauto. }
  destruct (_ && String.eqb pn postPath); [apply handlePostMessage_sessions|].
  destruct (_ && String.eqb pn "/calculate"); [reflexivity|].
  repeat case_match; reflexivity.
Qed.



(** A request whose URL parses and whose method is none of GET, POST and
    OPTIONS is answered 404 [Not Found], whatever its path, and leaves the
    session table unchanged. *)
Theorem dispatch_other_methods (c : Config) (project_root : string) (ss : sessions)
    (o : SseOpen) (rq : HttpRequest) (pathname : string) (query : list (string * string)) :
  req_method rq <> Some "GET" -> req_method rq <> Some "POST" ->
  req_method rq <> Some "OPTIONS" -> req_url rq = Some (Some (pathname, query)) ->
  dispatch c project_root ss o rq = (Plain 404 "Not Found", ss).
Proof.
  intros Hg Hp Ho Hu. unfold dispatch. rewrite Hu.
  rewrite !bool_decide_eq_false_2 by assumption. reflexivity.
Qed.


Lemma str_length_app (s t : string) :
  String.length (s ++ t) = String.length s + String.length t.
Proof. induction s as [|c s IH]; [reflexivity|]. change (String c s ++ t) with (String c (s ++ t)). cbn [String.length]. rewrite IH. reflexivity. Qed.

Lemma substring_app_r (s t : string) (k n : nat) :
  String.substring (String.length s + k) n (s ++ t) = String.substring k n t.
Proof. induction s as [|c s IH]; [reflexivity | exact IH]. Qed.

Lemma ends_with_app (s t suffix : string) :
  String.length suffix <= String.length t ->
  ends_with (s ++ t) suffix = ends_with t suffix.
Proof.
  intros Hle. unfold ends_with. rewrite str_length_app.
  replace (String.length s + String.length t - String.length suffix)
    with (String.length s + (String.length t - String.length suffix)) by lia.
  rewrite substring_app_r. f_equal.
  assert (Hb : (String.length suffix <=? String.length t)%nat = true) by (apply Nat.leb_le; exact Hle). rewrite Hb. apply Nat.leb_le. lia.
Qed.

(** The content type of a static asset follows the file name's suffix:
    [.js] gives [application/javascript], [.css] gives [text/css] and
    [.html] gives [text/html]. *)
Theorem content_type_by_suffix (s : string) :
  content_type_of (s ++ ".js") = "application/javascript" /\
  content_type_of (s ++ ".css") = "text/css" /\
  content_type_of (s ++ ".html") = "text/html".
Proof.
  unfold content_type_of.
  split; [|split].
  - rewrite (ends_with_app s ".js" ".js") by (cbn; lia). reflexivity.
  - rewrite (ends_with_app s ".css" ".js"), (ends_with_app s ".css" ".css") by (cbn; lia).
    reflexivity.
  - rewrite (ends_with_app s ".html" ".js"), (ends_with_app s ".html" ".css"),
      (ends_with_app s ".html" ".html") by (cbn; lia).
    reflexivity.
Qed.


Lemma lookup_last_None {A} (key : A -> string) (k : string) (l : list A) (i : nat) :
  lookup_last key k l i = None <-> Forall (fun x => key x <> k) l.
Proof.
  revert i. induction l as [|x l IH]; intros i; cbn; [split; [constructor | reflexivity]|].
  rewrite Forall_cons. specialize (IH (S i)).
  destruct (lookup_last key k l (S i)) eqn:E.
  - split; [discriminate|]. intros [_ Hl]. apply IH in Hl. discriminate.
  - destruct (String.eqb_spec (key x) k) as [Ek|Ek].
    + split; [discriminate|]. intros [Hx _]. contradiction.
    + split; [intros _; split; [exact Ek | apply IH; reflexivity] | reflexivity].
Qed.

Lemma lookup_last_Some {A} (key : A -> string) (k : string) (l : list A) (i j : nat) :
  lookup_last key k l i = Some j ->
  i <= j /\ exists x, l !! (j - i) = Some x /\ key x = k /\
    forall j' x', j - i < j' -> l !! j' = Some x' -> key x' <> k.
Proof.
  revert i. induction l as [|x l IH]; intros i H; cbn in H; [discriminate|].
  destruct (lookup_last key k l (S i)) as [j0|] eqn:E.
  - injection H as <-. destruct (IH (S i) E) as (Hle & y & Hy & Hky & Hlast).
    split; [lia|]. exists y.
    replace (j0 - i) with (S (j0 - S i)) by lia. split; [exact Hy|]. split; [exact Hky|].
    intros j' x' Hj' Hx'. destruct j' as [|j']; [lia|].
    apply (Hlast j' x'); [lia | exact Hx'].
  - destruct (String.eqb_spec (key x) k) as [Ek|Ek]; [|discriminate].
    injection H as <-. split; [lia|]. exists x.
    rewrite Nat.sub_diag. split; [reflexivity|]. split; [exact Ek|].
    intros j' x' Hj' Hx'. destruct j' as [|j']; [lia|]. cbn in Hx'.
    apply lookup_last_None in E. rewrite Forall_lookup in E. exact (E j' x' Hx').
Qed.

(** [widgetsById.get(name)] misses exactly when no widget has the id
    [name]; when it hits, it designates a widget with that id, and no later
    widget in the registry has the same id (the last one wins). *)
Theorem widgetsById_spec (reg : list CalculatorWidget) (name : string) :
  (widgetsById reg name = None <-> Forall (fun w => wid w <> name) reg) /\
  (forall i, widgetsById reg name = Some i ->
     exists w, reg !! i = Some w /\ wid w = name /\
       forall j w', i < j -> reg !! j = Some w' -> wid w' <> name).
Proof.
  split; [apply lookup_last_None|].
  intros i H. destruct (lookup_last_Some _ _ _ _ _ H) as (_ & w & Hw & Hk & Hl).
  rewrite Nat.sub_0_r in Hw, Hl. exists w. auto.
Qed.

(** [widgetsByUri.get(uri)] misses exactly when no widget has the
    template URI [uri]; when it hits, it designates a widget with that URI,
    and no later widget has the same URI. *)
Theorem widgetsByUri_spec (reg : list CalculatorWidget) (uri : string) :
  (widgetsByUri reg uri = None <-> Forall (fun w => templateUri w <> uri) reg) /\
  (forall i, widgetsByUri reg uri = Some i ->
     exists w, reg !! i = Some w /\ templateUri w = uri /\
       forall j w', i < j -> reg !! j = Some w' -> templateUri w' <> uri).
Proof.
  split; [apply lookup_last_None|].
  intros i H. destruct (lookup_last_Some _ _ _ _ _ H) as (_ & w & Hw & Hk & Hl).
  rewrite Nat.sub_0_r in Hw, Hl. exists w. auto.
Qed.

(** In the registry built at start-up, whatever HTML was read, every
    widget is found by [widgetsById] under its own id and by
    [widgetsByUri] under its own template URI. *)
Theorem registry_keys_resolve (h1 h2 h3 h4 h5 : string) (i : nat) (w : CalculatorWidget) :
  mk_widgets h1 h2 h3 h4 h5 !! i = Some w ->
  widgetsById (mk_widgets h1 h2 h3 h4 h5) (wid w) = Some i /\
  widgetsByUri (mk_widgets h1 h2 h3 h4 h5) (templateUri w) = Some i.
Proof.
  intros H. do 5 (destruct i as [|i]; [injection H as <-; split; reflexivity|]).
  discriminate.
Qed.

Lemma lookup_last_insert {A} (key : A -> string) (k : string) (l : list A) (j n : nat) (x y : A) :
  l !! j = Some x -> key y = key x ->
  lookup_last key k (<[j:=y]> l) n = lookup_last key k l n.
Proof.
  revert j n. induction l as [|z l IH]; intros j n Hj Hk; [discriminate|].
  destruct j as [|j]; cbn in Hj.
  - injection Hj as ->. change (<[0:=y]> (x :: l)) with (y :: l). cbn [lookup_last].
    rewrite Hk. reflexivity.
  - change (<[S j:=y]> (z :: l)) with (z :: <[j:=y]> l). cbn [lookup_last].
    rewrite (IH j (S n) Hj Hk). reflexivity.
Qed.

(** Reading a resource a second time on the store left by the first read
    gives the same contents and the same store. *)
Theorem readResource_idempotent (c : Config) (reg : list CalculatorWidget) (uri : string) :
  readResource c (snd (readResource c reg uri)) uri = readResource c reg uri.
Proof.
  destruct (readResource c reg uri) as [res reg1] eqn:E. cbn [snd].
  rewrite <- E. unfold readResource in E |- *.
  destruct (widgetsByUri reg uri) as [i|] eqn:Ei;
    [|injection E as <- <-; rewrite Ei; reflexivity].
  destruct (reg !! i) as [w|] eqn:Ew;
    [|injection E as <- <-; rewrite Ei, Ew; reflexivity].
  destruct (readWidgetHtml _ _ _ (wid w)) as [h|] eqn:Eh;
    [|injection E as <- <-; rewrite Ei, Ew, Eh; reflexivity].
  injection E as <- <-.
  unfold widgetsByUri. erewrite lookup_last_insert by (exact Ew || reflexivity).
  fold (widgetsByUri reg uri). rewrite Ei.
  rewrite list_lookup_insert_eq by (eapply lookup_lt_Some; exact Ew).
  cbn [wid]. rewrite Eh. rewrite list_insert_insert, decide_True by reflexivity. reflexivity.
Qed.

(** A ReadResource request never changes the outcome of a later
    CallTool request. *)
Theorem readResource_preserves_callTool (c : Config) (reg : list CalculatorWidget)
    (uri name : string) (args : option (list (string * jval))) :
  callTool (snd (readResource c reg uri)) name args = callTool reg name args.
Proof.
  unfold readResource.
  destruct (widgetsByUri reg uri) as [i|] eqn:Ei; [|reflexivity].
  destruct (reg !! i) as [w|] eqn:Ew; [|reflexivity].
  destruct (readWidgetHtml _ _ _ (wid w)) as [h|] eqn:Eh; [|reflexivity].
  cbn [snd]. unfold callTool, widgetsById.
  erewrite lookup_last_insert by (exact Ew || reflexivity).
  destruct (lookup_last wid name reg 0) as [j|]; [|reflexivity]. cbn.
  destruct (decide (i = j)) as [<-|Hij].
  - rewrite list_lookup_insert_eq by (eapply lookup_lt_Some; exact Ew).
    rewrite Ew. reflexivity.
  - rewrite list_lookup_insert_ne by exact Hij. reflexivity.
Qed.



Lemma first_existing_Some (fs : filesystem) (l : list string) (p : string) :
  first_existing fs l = Some p ->
  exists_sync fs p = true /\
  exists pre post, l = (pre ++ p :: post)%list /\ Forall (fun q => exists_sync fs q = false) pre.
Proof.
  induction l as [|q l IH]; cbn; [discriminate|].
  destruct (exists_sync fs q) eqn:Eq.
  - intros [= <-]. split; [exact Eq|]. exists [], l. split; [reflexivity | constructor].
  - intros H. destruct (IH H) as (Hp & pre & post & -> & Hpre).
    split; [exact Hp|]. exists (q :: pre), post. split; [reflexivity | constructor; assumption].
Qed.

Lemma first_existing_None (fs : filesystem) (l : list string) :
  first_existing fs l = None -> Forall (fun q => exists_sync fs q = false) l.
Proof.
  induction l as [|q l IH]; cbn; [constructor|].
  destruct (exists_sync fs q) eqn:Eq; [discriminate|]. intros H. constructor; auto.
Qed.

(** [ASSETS_DIR] is the first of the three candidate paths that exists,
    all earlier candidates being absent; when none exists it is the first
    candidate. *)
Theorem assets_dir_choice (fs : filesystem) (dirname cwd : string) :
  let d := assets_dir_init fs dirname cwd in
  let ps := possiblePaths dirname cwd in
  (exists_sync fs d = true /\
   exists pre post, ps = (pre ++ d :: post)%list /\
                    Forall (fun q => exists_sync fs q = false) pre) \/
  (Forall (fun q => exists_sync fs q = false) ps /\ head ps = Some d).
Proof.
  intros d ps. unfold d, assets_dir_init. fold ps.
  destruct (first_existing fs ps) as [p|] eqn:E.
  - left. exact (first_existing_Some fs ps p E).
  - right. split; [exact (first_existing_None fs ps E) | reflexivity].
Qed.



Lemma sse_open_sessions_witness :
  req_method (get_request ssePath) = Some "GET" /\
  snd (dispatch ex_config "/app" ∅ ex_open (get_request ssePath)) !! "4f1c" =
    Some {| sr_server := 1; sr_transport := 1 |}.
Proof.
  split; [reflexivity|].
  exact (proj2 (proj1 (sse_open_sessions ex_config "/app" ∅ ex_open
                         (get_request ssePath) [] eq_refl eq_refl) eq_refl)).
Defined.


Lemma only_sse_changes_sessions_witness :
  ~ (req_method (post_request [("sessionId", "4f1c")] None) = Some "GET" /\
     exists q, req_url (post_request [("sessionId", "4f1c")] None) = Some (Some (ssePath, q))) /\
  snd (dispatch ex_config "/app" ∅ ex_open (post_request [("sessionId", "4f1c")] None)) = ∅.
Proof.
  split; [intros [H _]; discriminate|].
  apply only_sse_changes_sessions. intros [H _]. discriminate.
Defined.

Lemma dispatch_other_methods_witness :
  dispatch ex_config "/app" ∅ ex_open
    {| req_method := Some "PUT"; req_url := Some (Some (ssePath, [])); req_body := None |} =
  (Plain 404 "Not Found", ∅).
Proof.
  apply (dispatch_other_methods _ _ _ _ _ ssePath []); cbn; [discriminate..|reflexivity].
Defined.


Lemma registry_keys_resolve_witness :
  mk_widgets "a" "b" "c" "d" "e" !! 4 =
    Some {| wid := "super-calculator"; title := "Super Calculator";
            templateUri := "ui://widget/super-calculator.html";
            invoking := "Opening super calculator...";
            invoked := "Super calculator ready"; html := "e";
            responseText := "Super calculator rendered!" |} /\
  widgetsById (mk_widgets "a" "b" "c" "d" "e") "super-calculator" = Some 4 /\
  widgetsByUri (mk_widgets "a" "b" "c" "d" "e") "ui://widget/super-calculator.html" = Some 4.
Proof.
  split; [reflexivity|].
  apply (registry_keys_resolve "a" "b" "c" "d" "e" 4
    {| wid := "super-calculator"; title := "Super Calculator";
       templateUri := "ui://widget/super-calculator.html";
       invoking := "Opening super calculator...";
       invoked := "Super calculator ready"; html := "e";
       responseText := "Super calculator rendered!" |}).
  reflexivity.
Defined.
